(** * posthog-replicate: the event-capture and correlation logic

    A shallow embedding of [src/capture.ts], [src/types.ts] and the wrapper
    class [PostHogReplicate], followed by the properties of the design
    document that were checked against it.

    JavaScript values are embedded as an inductive type; objects are finite
    maps from property names to values.  The underlying Replicate client and
    the timer are external: every wrapper operation takes the behaviour of
    the delegated call and the timer reading as arguments.  The PostHog
    collector is modelled as the list of the event messages handed to its
    [capture] method, in call order; [capture] itself only records (the SDK
    queues the message and returns). *)

From stdpp Require Import gmap strings list fin_maps pretty.

Set Warnings "-register-all".

(** ** JavaScript values and the operators the sources use *)

Module JS.

(** Numbers: the integer-valued doubles (HTTP statuses are such) and NaN.
    Zero stands for both signed zeros; the timer reading, a fraction of a
    second, is only passed along and is any [value] here. *)
Inductive number :=
| NaN
| Int (z : Z).

(** [VError] is an instance of [Error]: [name], [message] and [stack] are
    what its properties of these names read, [props] holds its other own
    properties ([status], [statusCode], [response], ...).  Strings are
    sequences of bytes. *)
Inductive value :=
| VUndefined
| VNull
| VBool (b : bool)
| VNum (n : number)
| VStr (s : string)
| VArr (elements : list value)
| VObj (props : gmap string value)
| VError (name message : string) (stack : option string)
         (props : gmap string value).

Abbreviation object := (gmap string value).

Definition num (z : Z) : value := VNum (Int z).

(** ToBoolean: what [if (v)], [!v], [v || w] and [v && w] test. *)
Definition truthy (v : value) : bool :=
  match v with
  | VUndefined | VNull => false
  | VBool b => b
  | VNum NaN => false
  | VNum (Int z) => negb (z =? 0)%Z
  | VStr s => negb (String.eqb s "")
  | VArr _ | VObj _ | VError _ _ _ _ => true
  end.

(** [a || b] *)
Definition or (a b : value) : value := if truthy a then a else b.

(** [v !== undefined] *)
Definition defined (v : value) : bool :=
  match v with VUndefined => false | _ => true end.

(** [typeof v === "number"] *)
Definition is_number (v : value) : bool :=
  match v with VNum _ => true | _ => false end.

(** [typeof v === "object"]; note that [typeof null] is ["object"] too. *)
Definition is_object (v : value) : bool :=
  match v with
  | VNull | VArr _ | VObj _ | VError _ _ _ _ => true
  | _ => false
  end.

(** [v === s] for a string literal [s] *)
Definition is_string (s : string) (v : value) : bool :=
  match v with VStr t => String.eqb t s | _ => false end.

Definition of_option (o : option value) : value := default VUndefined o.

(** [v.k] and [v?.k] for the property names the sources read ([status],
    [statusCode], [response], [id], [model], [version], [input], [output],
    [error], [signal], [posthog...]); none of them is a built-in member of a
    string or an array, so only objects answer. *)
Definition get (v : value) (k : string) : value :=
  match v with
  | VObj props => of_option (props !! k)
  | VError name message stack props =>
      if String.eqb k "name" then VStr name
      else if String.eqb k "message" then VStr message
      else if String.eqb k "stack" then of_option (VStr <$> stack)
      else of_option (props !! k)
  | _ => VUndefined
  end.

Definition indexed {A} (f : A → value) (l : list A) : object :=
  list_to_map (imap (λ i x, (pretty i, f x)) l).

Definition char (a : Ascii.ascii) : value :=
  VStr (String.String a EmptyString).

(** The own enumerable properties of [v]: what [{...v}] and
    [Object.assign(target, v)] copy.  [name], [message] and [stack] of an
    [Error] are not enumerable. *)
Definition own_enumerable (v : value) : object :=
  match v with
  | VObj props => props
  | VError _ _ _ props => props
  | VArr elements => indexed id elements
  | VStr s => indexed char (String.list_ascii_of_string s)
  | _ => ∅
  end.

(** [{...a, ...b}]: the keys of [b] win. *)
Definition spread (a b : object) : object := b ∪ a.

(** [Object.assign(target, source)] *)
Definition assign (target : object) (source : value) : object :=
  spread target (own_enumerable source).

Definition number_to_string (n : number) : string :=
  match n with
  | NaN => "NaN"
  | Int z => pretty z
  end.

(** [String(v)], the ToString conversion (objects without a [toString] of
    their own, integers below 10^21). *)
Fixpoint ToString (v : value) : string :=
  match v with
  | VUndefined => "undefined"
  | VNull => "null"
  | VBool true => "true"
  | VBool false => "false"
  | VNum n => number_to_string n
  | VStr s => s
  | VArr elements =>
      (fix join (l : list value) : string :=
         let element x :=
           match x with
           | VUndefined | VNull => ""
           | _ => ToString x
           end in
         match l with
         | [] => ""
         | [x] => element x
         | x :: rest => element x +:+ "," +:+ join rest
         end) elements
  | VObj _ => "[object Object]"
  | VError name message _ _ =>
      if String.eqb name "" then message
      else if String.eqb message "" then name
      else name +:+ ": " +:+ message
  end.

(** How a call of the underlying client ends. *)
Inductive Completion :=
| Return (v : value)
| Throw (err : value).

End JS.

Import JS.

(** ** types.ts *)

Module Types.

(** [CaptureOptions]; a field left out of the object literal reads
    [undefined]. *)
Record CaptureOptions := {
  model : value;
  latency : value;
  httpStatus : value;
  isError : value;
  error : value;
  input : value;
  output : value;
  distinctId : value;
  traceId : value;
  customProperties : value;
  groups : value;
  privacyMode : value;
  stream : value;
  predictionId : value;
}.

Definition PROVIDER : string := "replicate".
Definition BASE_URL : string := "https://api.replicate.com".
Definition EVENT_NAME : string := "$ai_generation".

End Types.

(** ** The collector: the argument of [posthog.capture] *)

Module PostHog.

Record EventMessage := {
  distinctId : value;
  event : string;
  properties : object;
  groups : value;
}.

(** The collector, seen from the wrapper: the messages captured so far. *)
Abbreviation Client := (list EventMessage).

Definition capture (message : EventMessage) (posthog : Client) : Client :=
  posthog ++ [message].

End PostHog.

(** ** capture.ts *)

Module Capture.
Import Types.

Definition formatInput (input : value) : value :=
  VArr [VObj (list_to_map [("role", VStr "user"); ("content", input)])].

Definition formatOutput (output : value) : value :=
  VArr [VObj (list_to_map [("role", VStr "assistant"); ("content", output)])].

Definition formatError (error : value) : value :=
  match error with
  | VError _ _ _ _ =>
      VObj (list_to_map [("name", get error "name");
                         ("message", get error "message");
                         ("stack", get error "stack")])
  | VStr _ => error
  | VArr _ | VObj _ => error
  | _ => VStr (ToString error)
  end.

(** The property bag of [captureGeneration] as it stands just before the
    custom properties are merged, statement by statement. *)
Definition generatedProperties (options : CaptureOptions) : object :=
  let properties : object :=
    list_to_map [
      ("$ai_provider", VStr PROVIDER);
      ("$ai_model", model options);
      ("$ai_latency", latency options);
      ("$ai_http_status", httpStatus options);
      ("$ai_base_url", VStr BASE_URL);
      ("$ai_is_error", isError options)
    ] in
  let properties :=
    if truthy (isError options) && truthy (error options)
    then <["$ai_error" := formatError (error options)]> properties
    else properties in
  let properties :=
    if negb (truthy (privacyMode options)) then
      let properties :=
        if defined (input options)
        then <["$ai_input" := formatInput (input options)]> properties
        else properties in
      if defined (output options)
      then <["$ai_output_choices" := formatOutput (output options)]> properties
      else properties
    else properties in
  let properties :=
    if truthy (traceId options)
    then <["$ai_trace_id" := traceId options]> properties
    else properties in
  let properties :=
    if defined (stream options)
    then <["$ai_stream" := stream options]> properties
    else properties in
  if truthy (predictionId options)
  then <["$ai_prediction_id" := predictionId options]> properties
  else properties.

(** [if (options.customProperties) Object.assign(properties,
    options.customProperties)] *)
Definition generationProperties (options : CaptureOptions) : object :=
  let properties := generatedProperties options in
  if truthy (customProperties options)
  then assign properties (customProperties options)
  else properties.

Definition generationMessage (options : CaptureOptions) : PostHog.EventMessage :=
  {| PostHog.distinctId := or (distinctId options) (VStr "anonymous");
     PostHog.event := EVENT_NAME;
     PostHog.properties := generationProperties options;
     PostHog.groups := groups options |}.

Definition captureGeneration (posthog : PostHog.Client)
    (options : CaptureOptions) : PostHog.Client :=
  PostHog.capture (generationMessage options) posthog.

End Capture.

(** ** The wrapper class *)

(** A chunk of the underlying client's stream: [{ event, data, id? }]. *)
Module ServerSentEvent.

Record t := {
  event : string;
  data : string;
  id : option string;
}.

End ServerSentEvent.

Module PostHogReplicate.
Import Types.

Abbreviation SSE := ServerSentEvent.t.

(** The mutable fields of an instance: the collector it reports to and the
    map from prediction ids to the tracking options given to [create]. *)
Record Instance := {
  posthog : PostHog.Client;
  predictionTrackingParams : gmap string object;
}.

Definition trackingKeys : list string :=
  ["posthogDistinctId"; "posthogTraceId"; "posthogProperties";
   "posthogGroups"; "posthogPrivacyMode"].

Record Extracted := {
  posthogParams : object;
  replicateOptions : object;
}.

(** The destructuring reads each of the five keys ([undefined] when the
    options lack it) and the object literal stores all five; the rest
    pattern keeps the other own properties. *)
Definition extractPostHogParams (options : object) : Extracted :=
  {| posthogParams :=
       list_to_map ((λ k, (k, of_option (options !! k))) <$> trackingKeys);
     replicateOptions := foldr delete options trackingKeys |}.

Definition extractHttpStatus (err : value) : value :=
  if truthy err && is_object err then
    let errorObj := err in
    if is_number (get errorObj "status") then get errorObj "status"
    else if is_number (get errorObj "statusCode") then get errorObj "statusCode"
    else
      let response := get errorObj "response" in
      if truthy response && is_object response then
        if is_number (get response "status") then get response "status"
        else VUndefined
      else VUndefined
  else VUndefined.

(** The locals shared by the [try], [catch] and [finally] blocks of every
    operation: [output] or [prediction], [isError], [error], [httpStatus]. *)
Record Locals := {
  result : value;
  l_isError : bool;
  l_error : value;
  l_httpStatus : value;
}.

(** [let result; let isError = false; let error; let httpStatus = 200] *)
Definition declared : Locals :=
  {| result := VUndefined; l_isError := false; l_error := VUndefined;
     l_httpStatus := num 200 |}.

(** [result = await ...] *)
Definition assigned (v : value) (l : Locals) : Locals :=
  {| result := v; l_isError := l_isError l; l_error := l_error l;
     l_httpStatus := l_httpStatus l |}.

(** [catch (err) { isError = true; error = err;
    httpStatus = this.extractHttpStatus(err) || 500; throw err }] *)
Definition caught (err : value) (l : Locals) : Locals :=
  {| result := result l; l_isError := true; l_error := err;
     l_httpStatus := or (extractHttpStatus err) (num 500) |}.

(** [captureGeneration(this.posthog, options)] *)
Definition capturing (options : CaptureOptions) (this : Instance) : Instance :=
  {| posthog := Capture.captureGeneration (posthog this) options;
     predictionTrackingParams := predictionTrackingParams this |}.

(** How the statement ends once [finally] has run: the pending [throw] of
    the [catch] block if there is one, else the [return]. *)
Definition completing (thrown : option value) (returned : value) : Completion :=
  match thrown with
  | Some err => Throw err
  | None => Return returned
  end.

Section Run.

(** [super.run] at the time of the call, and the timer reading taken in
    the [finally] block. *)
Variable super_run : string → object → Completion.
Variable getElapsed : value.

Definition runOptions (model : string) (ex : Extracted) (l : Locals)
    : CaptureOptions :=
  {| model := VStr model;
     latency := getElapsed;
     httpStatus := l_httpStatus l;
     isError := VBool (l_isError l);
     error := l_error l;
     input := get (VObj (replicateOptions ex)) "input";
     output := result l;
     distinctId := get (VObj (posthogParams ex)) "posthogDistinctId";
     traceId := get (VObj (posthogParams ex)) "posthogTraceId";
     customProperties := get (VObj (posthogParams ex)) "posthogProperties";
     groups := get (VObj (posthogParams ex)) "posthogGroups";
     privacyMode := get (VObj (posthogParams ex)) "posthogPrivacyMode";
     stream := VBool false;
     predictionId := VUndefined |}.

Definition run (model : string) (options : object) (this : Instance)
    : Completion * Instance :=
  let ex := extractPostHogParams options in
  let '(l, thrown) :=
    match super_run model (replicateOptions ex) with
    | Return output => (assigned output declared, None)
    | Throw err => (caught err declared, Some err)
    end in
  let this := capturing (runOptions model ex l) this in
  (completing thrown (result l), this).

End Run.

(** What [super.stream(model, options)] iterates: its chunks in order, then
    either the end of the iteration or an error. *)
Record Upstream := {
  chunks : list SSE;
  failure : option value;
}.

(** The suspended body of the generator at its [yield]: the destructured
    options, the rest of the underlying iteration and [collectedOutput]. *)
Record Frame := {
  extracted : Extracted;
  pending : Upstream;
  collectedOutput : string;
}.

Inductive Position :=
| SuspendedStart
| SuspendedYield (frame : Frame)
| Completed.

(** The generator object returned by [stream(model, options)]. *)
Record Generator := {
  g_model : string;
  g_options : object;
  position : Position;
}.

(** What one [next()] settles to. *)
Inductive IteratorResult :=
| Yielded (event : SSE)
| Done
| Thrown (err : value).

Section Stream.

Variable super_stream : string → object → Upstream.
Variable getElapsed : value.

Definition streamOptions (model : string) (ex : Extracted)
    (collectedOutput : string) (l : Locals) : CaptureOptions :=
  {| model := VStr model;
     latency := getElapsed;
     httpStatus := l_httpStatus l;
     isError := VBool (l_isError l);
     error := l_error l;
     input := get (VObj (replicateOptions ex)) "input";
     output := or (VStr collectedOutput) VUndefined;
     distinctId := get (VObj (posthogParams ex)) "posthogDistinctId";
     traceId := get (VObj (posthogParams ex)) "posthogTraceId";
     customProperties := get (VObj (posthogParams ex)) "posthogProperties";
     groups := get (VObj (posthogParams ex)) "posthogGroups";
     privacyMode := get (VObj (posthogParams ex)) "posthogPrivacyMode";
     stream := VBool true;
     predictionId := VUndefined |}.

(** Calling [stream] runs nothing: the body starts at the first [next()]. *)
Definition stream (model : string) (options : object) : Generator :=
  {| g_model := model; g_options := options; position := SuspendedStart |}.

Definition moved (g : Generator) (p : Position) : Generator :=
  {| g_model := g_model g; g_options := g_options g; position := p |}.

(** The [for await] loop from the point where it asks the underlying
    stream for its next chunk, up to the next [yield] or to the end of the
    [try]/[catch]/[finally] statement. *)
Definition resume (g : Generator) (frame : Frame) (this : Instance)
    : IteratorResult * Generator * Instance :=
  match chunks (pending frame) with
  | event :: rest =>
      let collectedOutput :=
        if String.eqb (ServerSentEvent.event event) "output"
        then collectedOutput frame +:+ ServerSentEvent.data event
        else collectedOutput frame in
      (Yielded event,
       moved g (SuspendedYield
         {| extracted := extracted frame;
            pending := {| chunks := rest;
                          failure := failure (pending frame) |};
            collectedOutput := collectedOutput |}),
       this)
  | [] =>
      let '(l, settled) :=
        match failure (pending frame) with
        | None => (declared, Done)
        | Some err => (caught err declared, Thrown err)
        end in
      let this :=
        capturing (streamOptions (g_model g) (extracted frame)
                     (collectedOutput frame) l) this in
      (settled, moved g Completed, this)
  end.

Definition next (g : Generator) (this : Instance)
    : IteratorResult * Generator * Instance :=
  match position g with
  | SuspendedStart =>
      let ex := extractPostHogParams (g_options g) in
      resume g
        {| extracted := ex;
           pending := super_stream (g_model g) (replicateOptions ex);
           collectedOutput := "" |}
        this
  | SuspendedYield frame => resume g frame this
  | Completed => (Done, g, this)
  end.

(** The caller's [for await (const event of stream) ...] with a body that
    completes normally: [next()] until the generator is done or throws.
    The result holds the chunks the loop body saw. *)
Fixpoint for_await (fuel : nat) (g : Generator) (this : Instance)
    : option (list SSE * Completion * Instance) :=
  match fuel with
  | O => None
  | S fuel =>
      match next g this with
      | (Yielded event, g, this) =>
          match for_await fuel g this with
          | Some (events, c, this) => Some (event :: events, c, this)
          | None => None
          end
      | (Done, _, this) => Some ([], Return VUndefined, this)
      | (Thrown err, _, this) => Some ([], Throw err, this)
      end
  end.

(** The first [n] calls of [next()]: what they yielded and where they left
    the generator and the instance. *)
Fixpoint nexts (n : nat) (g : Generator) (this : Instance)
    : list IteratorResult * Generator * Instance :=
  match n with
  | O => ([], g, this)
  | S n =>
      let '(r, g, this) := next g this in
      let '(rs, g, this) := nexts n g this in
      (r :: rs, g, this)
  end.

End Stream.

(** [Object.values(o).some(v => v !== undefined)] *)
Definition someDefined (o : object) : bool :=
  existsb (λ kv, defined kv.2) (map_to_list o).

Section Predictions.

Variable originalPredictionsCreate : object → Completion.
Variable originalPredictionsGet : string → option object → Completion.
Variable getElapsed : value.

(** [if (predictionId && Object.values(posthogParams).some(...))
    this.predictionTrackingParams.set(predictionId, posthogParams)].
    The map is read and cleaned with string ids only, so an id that is not
    a string would sit under a key that no lookup finds: it is left out. *)
Definition remember (predictionId : value) (posthogParams : object)
    (this : Instance) : Instance :=
  match predictionId with
  | VStr id =>
      if truthy predictionId && someDefined posthogParams
      then {| posthog := posthog this;
              predictionTrackingParams :=
                <[id := posthogParams]> (predictionTrackingParams this) |}
      else this
  | _ => this
  end.

Definition createOptions (ex : Extracted) (l : Locals) : CaptureOptions :=
  let prediction := result l in
  let model :=
    or (or (get (VObj (replicateOptions ex)) "model")
           (get (VObj (replicateOptions ex)) "version"))
       (VStr "unknown") in
  {| model := VStr (ToString model);
     latency := getElapsed;
     httpStatus := l_httpStatus l;
     isError := VBool (l_isError l);
     error := l_error l;
     input := get (VObj (replicateOptions ex)) "input";
     output := VUndefined;
     distinctId := get (VObj (posthogParams ex)) "posthogDistinctId";
     traceId := get (VObj (posthogParams ex)) "posthogTraceId";
     customProperties :=
       VObj (<["$ai_async_prediction" := VBool true]>
               (own_enumerable
                  (get (VObj (posthogParams ex)) "posthogProperties")));
     groups := get (VObj (posthogParams ex)) "posthogGroups";
     privacyMode := get (VObj (posthogParams ex)) "posthogPrivacyMode";
     Types.stream := VUndefined;
     predictionId := get prediction "id" |}.

Definition createPrediction (options : object) (this : Instance)
    : Completion * Instance :=
  let ex := extractPostHogParams options in
  let '(l, thrown, this) :=
    match originalPredictionsCreate (replicateOptions ex) with
    | Return result =>
        let l := assigned result declared in
        let prediction := result in
        let predictionId := get prediction "id" in
        (l, None, remember predictionId (posthogParams ex) this)
    | Throw err => (caught err declared, Some err, this)
    end in
  let this := capturing (createOptions ex l) this in
  (completing thrown (result l), this).

(** [this.predictionTrackingParams.get(predictionId) || {}] *)
Definition storedParams (predictionId : string) (this : Instance) : object :=
  default ∅ (predictionTrackingParams this !! predictionId).

(** [options ? extractPostHogParams(options).posthogParams : {}] *)
Definition providedParams (options : option object) : object :=
  match options with
  | Some options => posthogParams (extractPostHogParams options)
  | None => ∅
  end.

(** [{ ...storedParams, ...providedParams }] *)
Definition mergedParams (predictionId : string) (options : option object)
    (this : Instance) : object :=
  spread (storedParams predictionId this) (providedParams options).

(** [status === "succeeded" || status === "failed" || status === "canceled"] *)
Definition isCompleted (status : value) : bool :=
  is_string "succeeded" status || is_string "failed" status
  || is_string "canceled" status.

(** [if (isCompleted) this.predictionTrackingParams.delete(predictionId)] *)
Definition cleanup (predictionId : string) (status : value)
    (this : Instance) : Instance :=
  if isCompleted status
  then {| posthog := posthog this;
          predictionTrackingParams :=
            delete predictionId (predictionTrackingParams this) |}
  else this.

Definition getOptions (predictionId : string) (posthogParams : object)
    (l : Locals) : CaptureOptions :=
  let prediction := result l in
  let model :=
    or (or (get prediction "model") (get prediction "version"))
       (VStr "unknown") in
  let status := get prediction "status" in
  {| model := VStr (ToString model);
     latency := getElapsed;
     httpStatus := l_httpStatus l;
     isError := VBool (l_isError l || is_string "failed" status);
     error :=
       or (l_error l)
          (if is_string "failed" status then get prediction "error"
           else VUndefined);
     input := get prediction "input";
     output :=
       if is_string "succeeded" status then get prediction "output"
       else VUndefined;
     distinctId := get (VObj posthogParams) "posthogDistinctId";
     traceId := get (VObj posthogParams) "posthogTraceId";
     customProperties :=
       VObj (<["$ai_prediction_completed" := VBool (isCompleted status)]>
               (<["$ai_prediction_get" := VBool true]>
                  (<["$ai_prediction_status" := status]>
                     (own_enumerable
                        (get (VObj posthogParams) "posthogProperties")))));
     groups := get (VObj posthogParams) "posthogGroups";
     privacyMode := get (VObj posthogParams) "posthogPrivacyMode";
     Types.stream := VUndefined;
     predictionId := VStr predictionId |}.

(** [options ? { signal: options.signal } : undefined] *)
Definition signalOnly (options : option object) : option object :=
  (λ options : object, {[ "signal" := of_option (options !! "signal") ]})
    <$> options.

Definition getPrediction (predictionId : string) (options : option object)
    (this : Instance) : Completion * Instance :=
  let posthogParams := mergedParams predictionId options this in
  let replicateOptions := signalOnly options in
  let '(l, thrown) :=
    match originalPredictionsGet predictionId replicateOptions with
    | Return result => (assigned result declared, None)
    | Throw err => (caught err declared, Some err)
    end in
  let status := get (result l) "status" in
  let this := cleanup predictionId status this in
  let this := capturing (getOptions predictionId posthogParams l) this in
  (completing thrown (result l), this).

End Predictions.

Section Return.

Variable getElapsed : value.

(** [generator.return()], which the caller's [break] out of its
    [for await] issues.  Before the first [next()] the body never starts; at
    a [yield] the return completion leaves the loop (the underlying
    iteration closes normally), skips [catch] and runs [finally]. *)
Definition return_ (g : Generator) (this : Instance)
    : IteratorResult * Generator * Instance :=
  match position g with
  | SuspendedStart => (Done, moved g Completed, this)
  | SuspendedYield frame =>
      (Done, moved g Completed,
       capturing (streamOptions getElapsed (g_model g) (extracted frame)
                    (collectedOutput frame) declared) this)
  | Completed => (Done, g, this)
  end.

End Return.

End PostHogReplicate.

(** ** The composing wrapper class [Replicate]

    The earlier form of the wrapper holds the client instead of extending
    it, destructures the options in each method, and tracks neither
    [predictions.get] nor the options given to [predictions.create]. *)

Module Replicate.
Import Types.

Section Client.

Variable client_run : string → object → Completion.
Variable client_predictions_create : object → Completion.
Variable getElapsed : value.

(** [const { posthogDistinctId, ..., ...replicateOptions } = options] *)
Definition rest (options : object) : object :=
  delete "posthogDistinctId"
    (delete "posthogTraceId"
       (delete "posthogProperties"
          (delete "posthogGroups" (delete "posthogPrivacyMode" options)))).

Definition run (model : string) (options : object) (posthog : PostHog.Client)
    : Completion * PostHog.Client :=
  let posthogDistinctId := of_option (options !! "posthogDistinctId") in
  let posthogTraceId := of_option (options !! "posthogTraceId") in
  let posthogProperties := of_option (options !! "posthogProperties") in
  let posthogGroups := of_option (options !! "posthogGroups") in
  let posthogPrivacyMode := of_option (options !! "posthogPrivacyMode") in
  let replicateOptions := rest options in
  let '(l, thrown) :=
    match client_run model replicateOptions with
    | Return output =>
        (PostHogReplicate.assigned output PostHogReplicate.declared, None)
    | Throw err =>
        (PostHogReplicate.caught err PostHogReplicate.declared, Some err)
    end in
  let posthog :=
    Capture.captureGeneration posthog
      {| model := VStr model;
         latency := getElapsed;
         httpStatus := PostHogReplicate.l_httpStatus l;
         isError := VBool (PostHogReplicate.l_isError l);
         error := PostHogReplicate.l_error l;
         input := get (VObj replicateOptions) "input";
         output := PostHogReplicate.result l;
         distinctId := posthogDistinctId;
         traceId := posthogTraceId;
         customProperties := posthogProperties;
         groups := posthogGroups;
         privacyMode := posthogPrivacyMode;
         stream := VBool false;
         predictionId := VUndefined |} in
  (PostHogReplicate.completing thrown (PostHogReplicate.result l), posthog).

Definition createPrediction (options : object) (posthog : PostHog.Client)
    : Completion * PostHog.Client :=
  let posthogDistinctId := of_option (options !! "posthogDistinctId") in
  let posthogTraceId := of_option (options !! "posthogTraceId") in
  let posthogProperties := of_option (options !! "posthogProperties") in
  let posthogGroups := of_option (options !! "posthogGroups") in
  let posthogPrivacyMode := of_option (options !! "posthogPrivacyMode") in
  let replicateOptions := rest options in
  let '(l, thrown) :=
    match client_predictions_create replicateOptions with
    | Return result =>
        (PostHogReplicate.assigned result PostHogReplicate.declared, None)
    | Throw err =>
        (PostHogReplicate.caught err PostHogReplicate.declared, Some err)
    end in
  let prediction := PostHogReplicate.result l in
  let model :=
    or (or (get (VObj replicateOptions) "model")
           (get (VObj replicateOptions) "version"))
       (VStr "unknown") in
  let posthog :=
    Capture.captureGeneration posthog
      {| model := VStr (ToString model);
         latency := getElapsed;
         httpStatus := PostHogReplicate.l_httpStatus l;
         isError := VBool (PostHogReplicate.l_isError l);
         error := PostHogReplicate.l_error l;
         input := get (VObj replicateOptions) "input";
         output := VUndefined;
         distinctId := posthogDistinctId;
         traceId := posthogTraceId;
         customProperties :=
           VObj (<["$ai_async_prediction" := VBool true]>
                   (own_enumerable posthogProperties));
         groups := posthogGroups;
         privacyMode := posthogPrivacyMode;
         stream := VUndefined;
         predictionId := get prediction "id" |} in
  (PostHogReplicate.completing thrown (PostHogReplicate.result l), posthog).

End Client.

End Replicate.

(** * The logical operations, and what the properties are stated with *)

Import PostHogReplicate.

(** A logical operation: a wrapper entry point with its arguments, the
    behaviour of the underlying client at the time of the call and the
    timer reading. *)
Inductive Operation :=
| Run (super_run : string → object → Completion) (getElapsed : value)
      (model : string) (options : object)
| Stream (super_stream : string → object → Upstream) (getElapsed : value)
      (model : string) (options : object)
| Create (originalPredictionsCreate : object → Completion)
      (getElapsed : value) (options : object)
| Get (originalPredictionsGet : string → option object → Completion)
      (getElapsed : value) (predictionId : string) (options : option object).

(** Running an operation to its end; a stream is iterated until it is done
    or throws, with one [next()] per chunk and one more. *)
Definition perform (op : Operation) (this : Instance)
    : option (Completion * Instance) :=
  match op with
  | Run super_run getElapsed model options =>
      Some (run super_run getElapsed model options this)
  | Stream super_stream getElapsed model options =>
      let upstream :=
        super_stream model (replicateOptions (extractPostHogParams options)) in
      match for_await super_stream getElapsed (S (length (chunks upstream)))
              (stream model options) this with
      | Some (_, c, this) => Some (c, this)
      | None => None
      end
  | Create originalPredictionsCreate getElapsed options =>
      Some (createPrediction originalPredictionsCreate getElapsed options this)
  | Get originalPredictionsGet getElapsed predictionId options =>
      Some (getPrediction originalPredictionsGet getElapsed predictionId
              options this)
  end.

(** The tracking options in force for an operation: those split off its
    options and, for [predictions.get], merged with the stored ones. *)
Definition tracking (op : Operation) (this : Instance) : object :=
  match op with
  | Run _ _ _ options | Stream _ _ _ options | Create _ _ options =>
      posthogParams (extractPostHogParams options)
  | Get _ _ predictionId options => mergedParams predictionId options this
  end.

(** [prediction?.status] of what the underlying [get] settled to. *)
Definition statusOf (c : Completion) : value :=
  match c with
  | Return prediction => get prediction "status"
  | Throw _ => VUndefined
  end.

(** The entries that the wrapper writes into the custom properties after
    the caller's own, by operation. *)
Definition wrapperProperties (op : Operation) (c : Completion) : object :=
  match op with
  | Run _ _ _ _ | Stream _ _ _ _ => ∅
  | Create _ _ _ => {[ "$ai_async_prediction" := VBool true ]}
  | Get _ _ _ _ =>
      list_to_map [
        ("$ai_prediction_status", statusOf c);
        ("$ai_prediction_get", VBool true);
        ("$ai_prediction_completed", VBool (isCompleted (statusOf c)))
      ]
  end.

(** How the [try]/[catch] around a delegated call leaves the locals. *)
Definition locals (call : Completion) : Locals :=
  match call with
  | Return v => assigned v declared
  | Throw err => caught err declared
  end.

(** How the [try]/[catch] of the generator leaves the locals, and how the
    iteration ends. *)
Definition settled (failure : option value) : Locals :=
  match failure with
  | None => declared
  | Some err => caught err declared
  end.

Definition ending (failure : option value) : Completion :=
  match failure with
  | None => Return VUndefined
  | Some err => Throw err
  end.

(** The concatenation, in order, of the data of the chunks tagged
    ["output"]. *)
Definition outputText (events : list SSE) : string :=
  foldr String.append ""
    (ServerSentEvent.data
       <$> filter (λ e, ServerSentEvent.event e = "output") events).

(** The options handed to [captureGeneration] by an operation. *)
Definition captured (op : Operation) (this : Instance) : Types.CaptureOptions :=
  match op with
  | Run super_run getElapsed model options =>
      let ex := extractPostHogParams options in
      runOptions getElapsed model ex
        (locals (super_run model (replicateOptions ex)))
  | Stream super_stream getElapsed model options =>
      let ex := extractPostHogParams options in
      let upstream := super_stream model (replicateOptions ex) in
      streamOptions getElapsed model ex (outputText (chunks upstream))
        (settled (failure upstream))
  | Create originalPredictionsCreate getElapsed options =>
      let ex := extractPostHogParams options in
      createOptions getElapsed ex
        (locals (originalPredictionsCreate (replicateOptions ex)))
  | Get originalPredictionsGet getElapsed predictionId options =>
      getOptions getElapsed predictionId
        (mergedParams predictionId options this)
        (locals (originalPredictionsGet predictionId (signalOnly options)))
  end.

(** What the call that an operation delegates to settles to. *)
Definition delegated (op : Operation) : Completion :=
  match op with
  | Run super_run _ model options =>
      super_run model (replicateOptions (extractPostHogParams options))
  | Stream super_stream _ model options =>
      ending
        (failure
           (super_stream model
              (replicateOptions (extractPostHogParams options))))
  | Create originalPredictionsCreate _ options =>
      originalPredictionsCreate
        (replicateOptions (extractPostHogParams options))
  | Get originalPredictionsGet _ predictionId options =>
      originalPredictionsGet predictionId (signalOnly options)
  end.

(** What the [next()] that finds the underlying stream exhausted settles
    to. *)
Definition lastResult (failure : option value) : IteratorResult :=
  match failure with
  | None => Done
  | Some err => Thrown err
  end.

(** The keys that [captureGeneration] writes unconditionally. *)
Definition coreKeys : list string :=
  ["$ai_provider"; "$ai_model"; "$ai_latency"; "$ai_http_status";
   "$ai_base_url"; "$ai_is_error"].

(** What the event has under a key that [captureGeneration] generates:
    the custom properties' value for the key when they have one. *)
Definition unlessCustom (custom : object) (k : string)
    (generated : option value) : option value :=
  match custom !! k with
  | Some v => Some v
  | None => generated
  end.

(** Whether an operation that returned [v] is reported as an error: only
    [predictions.get], when the prediction it fetched has failed. *)
Definition reportedFailed (op : Operation) (v : value) : bool :=
  match op with
  | Get _ _ _ _ => is_string "failed" (get v "status")
  | _ => false
  end.

(** The status lookup in the words of the design: a numeric [status] of
    the error, else a numeric [statusCode], else a numeric [status] of its
    [response]. *)
Definition numeric (v : value) : option number :=
  match v with
  | VNum n => Some n
  | _ => None
  end.

Definition statusSought (err : value) : option number :=
  match numeric (get err "status") with
  | Some n => Some n
  | None =>
      match numeric (get err "statusCode") with
      | Some n => Some n
      | None => numeric (get (get err "response") "status")
      end
  end.

(** The terminal statuses of a prediction. *)
Definition terminal : list string := ["succeeded"; "failed"; "canceled"].

(** [{ ...options, distinctId }] *)
Definition identifiedBy (distinctId : value) (options : Types.CaptureOptions)
    : Types.CaptureOptions :=
  {| Types.model := Types.model options;
     Types.latency := Types.latency options;
     Types.httpStatus := Types.httpStatus options;
     Types.isError := Types.isError options;
     Types.error := Types.error options;
     Types.input := Types.input options;
     Types.output := Types.output options;
     Types.distinctId := distinctId;
     Types.traceId := Types.traceId options;
     Types.customProperties := Types.customProperties options;
     Types.groups := Types.groups options;
     Types.privacyMode := Types.privacyMode options;
     Types.stream := Types.stream options;
     Types.predictionId := Types.predictionId options |}.

(** ** Sample calls *)

Definition fresh : Instance :=
  {| posthog := []; predictionTrackingParams := ∅ |}.

Definition returning (v : value) : string → object → Completion :=
  λ _ _, Return v.

Definition throwing (err : value) : string → object → Completion :=
  λ _ _, Throw err.

Definition clipInput : value := VObj {[ "image" := VStr "https://x/y.jpg" ]}.

(** [{ input, posthogPrivacyMode: true }] *)
Definition privateOptions : object :=
  list_to_map [("input", clipInput); ("posthogPrivacyMode", VBool true)].

(** [{ input, posthogPrivacyMode: true,
       posthogProperties: { $ai_input: "kept" } }] *)
Definition privateOptionsWithInput : object :=
  list_to_map [("input", clipInput); ("posthogPrivacyMode", VBool true);
               ("posthogProperties", VObj {[ "$ai_input" := VStr "kept" ]})].

(** [{ model: "owner/model", input,
       posthogProperties: { $ai_async_prediction: "mine" } }] *)
Definition createOptionsWithFlag : object :=
  list_to_map [("model", VStr "owner/model"); ("input", clipInput);
               ("posthogProperties",
                VObj {[ "$ai_async_prediction" := VStr "mine" ]})].

(** [predictions.create] answering [{ id: "pred_123", status: "starting" }] *)
Definition creating : object → Completion :=
  λ _, Return (VObj (list_to_map [("id", VStr "pred_123");
                                  ("status", VStr "starting")])).

(** [predictions.get] answering [{ id: "pred_123", status: "failed" }] *)
Definition fetchingFailed : string → option object → Completion :=
  λ _ _, Return (VObj (list_to_map [("id", VStr "pred_123");
                                    ("status", VStr "failed")])).

(** An error object [{ status: 0 }] *)
Definition statusZero : value := VObj {[ "status" := num 0 ]}.

(** [{ input }] *)
Definition plainOptions : object := {[ "input" := clipInput ]}.

(** [{ model: "owner/model", input, posthogDistinctId: "user_1" }] *)
Definition trackedCreateOptions : object :=
  list_to_map [("model", VStr "owner/model"); ("input", clipInput);
               ("posthogDistinctId", VStr "user_1")].

(** [predictions.get] answering [{ id: "pred_123", status: "processing" }] *)
Definition fetching : string → option object → Completion :=
  λ _ _, Return (VObj (list_to_map [("id", VStr "pred_123");
                                    ("status", VStr "processing")])).

(** [{ posthogTraceId: "trace_9" }] *)
Definition tracedGetOptions : object := {[ "posthogTraceId" := VStr "trace_9" ]}.

(** The instance after [predictions.create(trackedCreateOptions)]. *)
Definition afterCreate : Instance :=
  (createPrediction creating (num 0) trackedCreateOptions fresh).2.

(** [{ input, posthogDistinctId: "user_123" }] *)
Definition clipOptions : object :=
  list_to_map [("input", clipInput); ("posthogDistinctId", VStr "user_123")].

(** [{ model: "owner/model", input }] *)
Definition untrackedCreateOptions : object :=
  list_to_map [("model", VStr "owner/model"); ("input", clipInput)].

(** An underlying stream of two output chunks and a closing one. *)
Definition helloChunks : list SSE :=
  [ {| ServerSentEvent.event := "output"; ServerSentEvent.data := "Hello ";
       ServerSentEvent.id := None |};
    {| ServerSentEvent.event := "output"; ServerSentEvent.data := "World";
       ServerSentEvent.id := None |};
    {| ServerSentEvent.event := "done"; ServerSentEvent.data := "";
       ServerSentEvent.id := None |} ].

Definition streaming : string → object → Upstream :=
  λ _ _, {| chunks := helloChunks; failure := None |}.

(** Lookups in the property bag: a conditional insertion under another key
    is skipped, one under the key itself decides. *)
Lemma lookup_insert_if_ne (b : bool) (k k' : string) (v : value) (m : object) :
  k ≠ k' → (if b then <[k:=v]> m else m) !! k' = m !! k'.
Proof. intros Hk. destruct b; [by rewrite lookup_insert_ne | done]. Qed.

Lemma lookup_insert_if_eq (b : bool) (k : string) (v : value) (m : object) :
  (if b then <[k:=v]> m else m) !! k = if b then Some v else m !! k.
Proof. destruct b; [by rewrite lookup_insert_eq | done]. Qed.

Lemma lookup_if (b : bool) (k : string) (m1 m2 : object) :
  (if b then m1 else m2) !! k = if b then m1 !! k else m2 !! k.
Proof. by destruct b. Qed.

Lemma if_same {A} (b : bool) (x : A) : (if b then x else x) = x.
Proof. by destruct b. Qed.

Ltac bag :=
  unfold Capture.generatedProperties;
  repeat first
    [ rewrite lookup_insert_if_eq
    | rewrite lookup_insert_if_ne by discriminate
    | rewrite lookup_if
    | rewrite if_same ];
  repeat case_match; try discriminate; vm_compute; reflexivity.

(** * Properties *)

(** ** The scenarios of the design document *)

Example run_scenario :
  run (returning (VObj {[ "result" := VStr "ok" ]})) (num 0) "openai/clip"
    clipOptions fresh
  = (Return (VObj {[ "result" := VStr "ok" ]}),
     {| posthog :=
          [ {| PostHog.distinctId := VStr "user_123";
               PostHog.event := "$ai_generation";
               PostHog.properties :=
                 list_to_map [
                   ("$ai_provider", VStr "replicate");
                   ("$ai_model", VStr "openai/clip");
                   ("$ai_latency", num 0);
                   ("$ai_http_status", num 200);
                   ("$ai_base_url", VStr "https://api.replicate.com");
                   ("$ai_is_error", VBool false);
                   ("$ai_input",
                    VArr [VObj (list_to_map [("role", VStr "user");
                                             ("content", clipInput)])]);
                   ("$ai_output_choices",
                    VArr [VObj (list_to_map
                                  [("role", VStr "assistant");
                                   ("content",
                                    VObj {[ "result" := VStr "ok" ]})])]);
                   ("$ai_stream", VBool false)
                 ];
               PostHog.groups := VUndefined |} ];
        predictionTrackingParams := ∅ |}).
Proof. vm_compute. reflexivity. Qed.

Example anonymous_scenario :
  PostHog.distinctId
    <$> posthog (run (returning (VStr "ok")) (num 0) "openai/clip"
                   plainOptions fresh).2
  = [VStr "anonymous"].
Proof. vm_compute. reflexivity. Qed.

Example create_scenario :
  (λ message,
     (PostHog.properties message !! "$ai_async_prediction",
      PostHog.properties message !! "$ai_prediction_id",
      PostHog.properties message !! "$ai_output_choices"))
    <$> posthog (createPrediction creating (num 0) untrackedCreateOptions
                   fresh).2
  = [(Some (VBool true), Some (VStr "pred_123"), None)].
Proof. vm_compute. reflexivity. Qed.

Example tracked_create_scenario :
  predictionTrackingParams afterCreate !! "pred_123"
  = Some (posthogParams (extractPostHogParams trackedCreateOptions)).
Proof. vm_compute. reflexivity. Qed.

(** ** The property bag *)

Section PropertyBag.
Import Types.

Lemma own_enumerable_falsy v : truthy v = false → own_enumerable v = ∅.
Proof.
  destruct v as [| |b|n|s|l|o|? ? ? o]; simpl; try done.
  destruct s; [done | discriminate].
Qed.

(** Whatever the custom properties are, merging them is a union in which
    they win. *)
Lemma generationProperties_union options :
  Capture.generationProperties options
  = own_enumerable (customProperties options)
    ∪ Capture.generatedProperties options.
Proof.
  unfold Capture.generationProperties, assign, spread.
  destruct (truthy (customProperties options)) eqn:E; [done |].
  by rewrite (own_enumerable_falsy _ E), (left_id_L ∅ (∪)).
Qed.

Lemma lookup_generationProperties_custom options k v :
  own_enumerable (customProperties options) !! k = Some v →
  Capture.generationProperties options !! k = Some v.
Proof.
  intros H. rewrite generationProperties_union.
  by apply lookup_union_Some_l.
Qed.

Lemma lookup_generationProperties_generated options k :
  own_enumerable (customProperties options) !! k = None →
  Capture.generationProperties options !! k
  = Capture.generatedProperties options !! k.
Proof.
  intros H. rewrite generationProperties_union.
  by apply lookup_union_r.
Qed.

Lemma lookup_generated_input options :
  Capture.generatedProperties options !! "$ai_input"
  = if negb (truthy (privacyMode options)) && defined (input options)
    then Some (Capture.formatInput (input options)) else None.
Proof. bag. Qed.

Lemma lookup_generated_output options :
  Capture.generatedProperties options !! "$ai_output_choices"
  = if negb (truthy (privacyMode options)) && defined (output options)
    then Some (Capture.formatOutput (output options)) else None.
Proof. bag. Qed.

Lemma lookup_generated_error options :
  Capture.generatedProperties options !! "$ai_error"
  = if truthy (isError options) && truthy (error options)
    then Some (Capture.formatError (error options)) else None.
Proof. bag. Qed.

Lemma lookup_generated_is_error options :
  Capture.generatedProperties options !! "$ai_is_error"
  = Some (isError options).
Proof. bag. Qed.

Lemma lookup_generated_http_status options :
  Capture.generatedProperties options !! "$ai_http_status"
  = Some (httpStatus options).
Proof. bag. Qed.

Lemma lookup_generated_stream options :
  Capture.generatedProperties options !! "$ai_stream"
  = if defined (stream options) then Some (stream options) else None.
Proof. bag. Qed.

End PropertyBag.

(** ** The stream generator *)

Section StreamFacts.
Variable super_stream : string → object → Upstream.
Variable getElapsed : value.

Lemma append_assoc (a b c : string) : (a +:+ b) +:+ c = a +:+ (b +:+ c).
Proof.
  induction a as [|x a IH]; [done |].
  change (String.String x ((a +:+ b) +:+ c)
          = String.String x (a +:+ (b +:+ c))).
  by rewrite IH.
Qed.

Lemma append_empty (a : string) : a +:+ "" = a.
Proof.
  induction a as [|x a IH]; [done |].
  change (String.String x (a +:+ "") = String.String x a).
  by rewrite IH.
Qed.

Lemma outputText_cons e events :
  outputText (e :: events)
  = if String.eqb (ServerSentEvent.event e) "output"
    then ServerSentEvent.data e +:+ outputText events
    else outputText events.
Proof.
  unfold outputText. rewrite filter_cons.
  destruct (String.eqb_spec (ServerSentEvent.event e) "output");
    case_decide; done.
Qed.

(** From a [yield], iterating to the end relays the remaining chunks and
    captures once, with the text collected so far followed by theirs. *)
Lemma for_await_resumed events : ∀ fuel g ex failure collected this,
  position g = SuspendedYield
    {| extracted := ex;
       pending := {| chunks := events; failure := failure |};
       collectedOutput := collected |} →
  length events < fuel →
  for_await super_stream getElapsed fuel g this
  = Some (events, ending failure,
          capturing
            (streamOptions getElapsed (g_model g) ex
               (collected +:+ outputText events) (settled failure))
            this).
Proof.
  induction events as [|e events IH]; intros fuel g ex fl collected this Hg Hf.
  - destruct fuel as [|fuel]; [simpl in Hf; lia |].
    simpl. unfold next. rewrite Hg. unfold resume. simpl.
    change (outputText []) with "". rewrite append_empty.
    by destruct fl.
  - destruct fuel as [|fuel]; [simpl in Hf; lia |].
    simpl in Hf. simpl. unfold next. rewrite Hg. unfold resume. simpl.
    erewrite IH; [| reflexivity | lia]. simpl.
    rewrite outputText_cons.
    destruct (String.eqb (ServerSentEvent.event e) "output");
      by rewrite ?append_assoc.
Qed.

Lemma for_await_stream model options this fuel :
  let ex := extractPostHogParams options in
  let upstream := super_stream model (replicateOptions ex) in
  length (chunks upstream) < fuel →
  for_await super_stream getElapsed fuel (stream model options) this
  = Some (chunks upstream, ending (failure upstream),
          capturing
            (streamOptions getElapsed model ex
               (outputText (chunks upstream)) (settled (failure upstream)))
            this).
Proof.
  intros ex upstream. subst ex upstream.
  destruct fuel as [|fuel]; [lia |].
  cbn -[extractPostHogParams outputText]. unfold resume.
  cbn -[extractPostHogParams outputText].
  destruct (super_stream model _) as [[|e events] fl];
    cbn -[extractPostHogParams outputText]; intros Hf.
  - by destruct fl.
  - erewrite for_await_resumed; [| reflexivity | lia].
    cbn -[extractPostHogParams outputText].
    rewrite outputText_cons.
    by destruct (String.eqb (ServerSentEvent.event e) "output").
Qed.

(** Before the underlying stream is exhausted, [next()] only relays. *)
Lemma nexts_resumed events : ∀ (n : nat) g ex failure collected this,
  position g = SuspendedYield
    {| extracted := ex;
       pending := {| chunks := events; failure := failure |};
       collectedOutput := collected |} →
  (n ≤ length events)%nat →
  ∃ g', nexts super_stream getElapsed n g this
        = (Yielded <$> take n events, g', this).
Proof.
  induction events as [|e events IH]; intros n g ex fl collected this Hg Hn.
  - destruct n; [by eexists | simpl in Hn; lia].
  - destruct n as [|n]; [by eexists |].
    simpl in Hn. simpl. unfold next. rewrite Hg. unfold resume. simpl.
    edestruct (IH n) as [g' ->]; [reflexivity | lia |]. by eexists.
Qed.

Lemma nexts_stream model options this (n : nat) :
  let ex := extractPostHogParams options in
  let upstream := super_stream model (replicateOptions ex) in
  (n ≤ length (chunks upstream))%nat →
  ∃ g', nexts super_stream getElapsed n (stream model options) this
        = (Yielded <$> take n (chunks upstream), g', this).
Proof.
  intros ex upstream. subst ex upstream.
  destruct n as [|n]; [by eexists |].
  cbn -[extractPostHogParams]. unfold resume.
  cbn -[extractPostHogParams].
  destruct (super_stream model _) as [[|e events] fl];
    cbn -[extractPostHogParams]; intros Hn; [lia |].
  edestruct (nexts_resumed events n) as [g' ->]; [reflexivity | lia |].
  by eexists.
Qed.

End StreamFacts.

(** ** One capture per operation *)

Lemma perform_captures op this :
  ∃ c this',
    perform op this = Some (c, this')
    ∧ posthog this' = posthog this ++ [Capture.generationMessage (captured op this)].
Proof.
  destruct op as [f t m o | f t m o | f t o | f t id o];
    unfold perform, captured.
  - unfold run. destruct (f m _); by eexists _, _.
  - pose proof (for_await_stream f t m o this _ (Nat.lt_succ_diag_r _)) as H.
    cbv zeta in *. rewrite H. by eexists _, _.
  - unfold createPrediction.
    destruct (f _) as [v|err]; [| by eexists _, _].
    eexists _, _. split; [done |].
    cbn [locals fst snd]. unfold remember, capturing.
    repeat case_match; done.
  - unfold getPrediction.
    destruct (f id _) as [v|err]; eexists _, _; (split; [done |]);
      unfold cleanup, capturing; by case_match.
Qed.

Lemma inserts_union (m : object) a b c va vb vc :
  a ≠ b → a ≠ c → b ≠ c →
  <[c:=vc]> (<[b:=vb]> (<[a:=va]> m))
  = list_to_map [(a, va); (b, vb); (c, vc)] ∪ m.
Proof.
  intros Hab Hac Hbc. apply map_eq; intros k. simpl.
  rewrite lookup_union, !lookup_insert, lookup_empty.
  repeat case_decide; subst; try done; destruct (m !! k); done.
Qed.

(** What the wrapper hands over as custom properties is the caller's own
    custom properties with the wrapper's entries written over them. *)
Lemma perform_custom op this :
  ∃ c this',
    perform op this = Some (c, this')
    ∧ own_enumerable (Types.customProperties (captured op this))
      = wrapperProperties op c
        ∪ own_enumerable (get (VObj (tracking op this)) "posthogProperties").
Proof.
  destruct op as [f t m o | f t m o | f t o | f t id o];
    unfold perform, captured, wrapperProperties, tracking.
  - destruct (run f t m o this) as [c this']. exists c, this'.
    split; [done |]. by rewrite (left_id_L ∅ (∪)).
  - pose proof (for_await_stream f t m o this _ (Nat.lt_succ_diag_r _)) as H.
    cbv zeta in *. rewrite H. eexists _, _. split; [done |].
    by rewrite (left_id_L ∅ (∪)).
  - destruct (createPrediction f t o this) as [c this']. exists c, this'.
    split; [done |].
    cbn [createOptions Types.customProperties own_enumerable].
    by rewrite insert_union_singleton_l.
  - unfold getPrediction.
    destruct (f id _) as [v|err]; eexists _, _; (split; [done |]);
      cbn [getOptions Types.customProperties own_enumerable locals statusOf
           completing assigned caught declared result];
      by rewrite inserts_union.
Qed.

Lemma perform_captured op this :
  ∃ c this',
    perform op this = Some (c, this')
    ∧ posthog this'
      = posthog this ++ [Capture.generationMessage (captured op this)]
    ∧ own_enumerable (Types.customProperties (captured op this))
      = wrapperProperties op c
        ∪ own_enumerable (get (VObj (tracking op this)) "posthogProperties").
Proof.
  destruct (perform_captures op this) as (c & this' & Hp & Hlog).
  destruct (perform_custom op this) as (c' & this'' & Hp' & Hcustom).
  rewrite Hp in Hp'. injection Hp' as <- <-.
  by exists c, this'.
Qed.

Lemma captured_privacyMode op this :
  Types.privacyMode (captured op this)
  = get (VObj (tracking op this)) "posthogPrivacyMode".
Proof. by destruct op. Qed.

(** C1. Every logical operation (run, a stream iterated to its end,
    predictions.create, predictions.get) hands exactly one event message to
    the collector, whether the underlying call returned or threw: the
    collector's log after the operation is the log before it followed by one
    message. *)
Theorem one_event_per_operation op this :
  ∃ c this' message,
    perform op this = Some (c, this')
    ∧ posthog this' = posthog this ++ [message].
Proof.
  destruct (perform_captures op this) as (c & this' & Hp & Hlog).
  by exists c, this', (Capture.generationMessage (captured op this)).
Qed.

(** C2. [run] ends exactly as the underlying client's [run] ended on the
    options without the tracking keys: the same returned value, or the same
    thrown error, and in both cases the instance it leaves has the event
    message in the collector's log. *)
Theorem run_ends_as_the_underlying_run super_run getElapsed model options this :
  ∃ message,
    run super_run getElapsed model options this
    = (super_run model (replicateOptions (extractPostHogParams options)),
       {| posthog := posthog this ++ [message];
          predictionTrackingParams := predictionTrackingParams this |}).
Proof.
  unfold run.
  destruct (super_run model _) as [output|err]; by eexists.
Qed.

(** ** Privacy mode and custom properties *)

(** C3, as amended. With privacy mode on, the wrapper itself writes neither
    [$ai_input] nor [$ai_output_choices], for every operation and outcome:
    the event has such a key only when the caller's own custom properties
    have it, and then with the caller's value. *)
Theorem privacy_mode_omits_generated_content op this :
  get (VObj (tracking op this)) "posthogPrivacyMode" = VBool true →
  ∃ c this' message,
    perform op this = Some (c, this')
    ∧ posthog this' = posthog this ++ [message]
    ∧ PostHog.properties message !! "$ai_input"
      = own_enumerable (get (VObj (tracking op this)) "posthogProperties")
          !! "$ai_input"
    ∧ PostHog.properties message !! "$ai_output_choices"
      = own_enumerable (get (VObj (tracking op this)) "posthogProperties")
          !! "$ai_output_choices".
Proof.
  intros Hprivacy.
  destruct (perform_captured op this) as (c & this' & Hp & Hlog & Hcustom).
  exists c, this', (Capture.generationMessage (captured op this)).
  split; [done |]. split; [done |].
  cbn [Capture.generationMessage PostHog.properties].
  rewrite generationProperties_union, Hcustom, !lookup_union.
  rewrite lookup_generated_input, lookup_generated_output.
  rewrite captured_privacyMode, Hprivacy. cbn [truthy negb andb].
  assert (wrapperProperties op c !! "$ai_input" = None) as ->
    by (destruct op; by simplify_map_eq).
  assert (wrapperProperties op c !! "$ai_output_choices" = None) as ->
    by (destruct op; by simplify_map_eq).
  split; by destruct (_ !! _).
Qed.

Lemma privacy_mode_omits_generated_content_witness :
  ∃ c this' message,
    perform (Run (returning (VStr "ok")) (num 0) "openai/clip" privateOptions)
      fresh = Some (c, this')
    ∧ posthog this' = posthog fresh ++ [message]
    ∧ PostHog.properties message !! "$ai_input" = None
    ∧ PostHog.properties message !! "$ai_output_choices" = None.
Proof.
  exact (privacy_mode_omits_generated_content
           (Run (returning (VStr "ok")) (num 0) "openai/clip" privateOptions)
           fresh eq_refl).
Defined.

(** C3 as stated fails: in privacy mode, a caller whose custom properties
    carry [$ai_input] gets an event with that key. *)
Lemma privacy_mode_custom_input_counterexample :
  privateOptionsWithInput !! "posthogPrivacyMode" = Some (VBool true)
  ∧ ∃ message,
      posthog (run (returning (VStr "ok")) (num 0) "openai/clip"
                 privateOptionsWithInput fresh).2 = [message]
      ∧ PostHog.properties message !! "$ai_input" = Some (VStr "kept").
Proof.
  split; [done |]. eexists. split; [reflexivity |]. by vm_compute.
Qed.

(** C9, as amended. The custom properties are merged last: every entry of
    the caller's custom properties is in the event with the caller's value,
    except under the keys that the wrapper itself writes into the custom
    properties after the caller's ([$ai_async_prediction] on create;
    [$ai_prediction_status], [$ai_prediction_get] and
    [$ai_prediction_completed] on get), which carry the wrapper's value. *)
Theorem custom_properties_merged_last op this :
  ∃ c this' message,
    perform op this = Some (c, this')
    ∧ posthog this' = posthog this ++ [message]
    ∧ wrapperProperties op c
      ∪ own_enumerable (get (VObj (tracking op this)) "posthogProperties")
      ⊆ PostHog.properties message.
Proof.
  destruct (perform_captured op this) as (c & this' & Hp & Hlog & Hcustom).
  exists c, this', (Capture.generationMessage (captured op this)).
  split; [done |]. split; [done |].
  cbn [Capture.generationMessage PostHog.properties].
  rewrite generationProperties_union, Hcustom.
  apply map_union_subseteq_l.
Qed.

(** C9 as stated fails: on create, the caller's own [$ai_async_prediction]
    is overwritten by the wrapper's flag. *)
Lemma custom_async_flag_counterexample :
  own_enumerable (get (VObj createOptionsWithFlag) "posthogProperties")
    !! "$ai_async_prediction" = Some (VStr "mine")
  ∧ ∃ message,
      posthog (createPrediction creating (num 0) createOptionsWithFlag
                 fresh).2 = [message]
      ∧ PostHog.properties message !! "$ai_async_prediction"
        = Some (VBool true).
Proof.
  split; [done |]. eexists. split; [reflexivity |]. by vm_compute.
Qed.

(** ** Error detail, status and distinct id *)

(** C4, as amended. In an event whose custom properties do not themselves
    set [$ai_is_error] or [$ai_error], the error flag is the captured one
    and [$ai_error] is present exactly when the flag is true and the
    captured error value is truthy; it then holds the formatted error. *)
Theorem error_detail_iff_flag_and_truthy_error posthog options :
  own_enumerable (Types.customProperties options) !! "$ai_is_error" = None →
  own_enumerable (Types.customProperties options) !! "$ai_error" = None →
  ∃ message,
    Capture.captureGeneration posthog options = posthog ++ [message]
    ∧ PostHog.properties message !! "$ai_is_error"
      = Some (Types.isError options)
    ∧ PostHog.properties message !! "$ai_error"
      = if truthy (Types.isError options) && truthy (Types.error options)
        then Some (Capture.formatError (Types.error options))
        else None.
Proof.
  intros Hflag Hdetail. eexists. split; [reflexivity |].
  cbn [Capture.generationMessage PostHog.properties].
  rewrite !lookup_generationProperties_generated by done.
  by rewrite lookup_generated_is_error, lookup_generated_error.
Qed.

Lemma error_detail_iff_flag_and_truthy_error_witness :
  ∃ message,
    Capture.captureGeneration []
      (captured (Run (throwing (VStr "boom")) (num 0) "openai/clip"
                   plainOptions) fresh)
    = [] ++ [message]
    ∧ PostHog.properties message !! "$ai_is_error" = Some (VBool true)
    ∧ PostHog.properties message !! "$ai_error" = Some (VStr "boom").
Proof.
  exact (error_detail_iff_flag_and_truthy_error []
           (captured (Run (throwing (VStr "boom")) (num 0) "openai/clip"
                        plainOptions) fresh)
           eq_refl eq_refl).
Defined.

(** C4 as stated fails: a fetched prediction with status ["failed"] and no
    [error] field gives an event whose flag is true and which has no
    [$ai_error]. *)
Lemma failed_without_error_counterexample :
  ∃ message,
    posthog (getPrediction fetchingFailed (num 0) "pred_123" None fresh).2
    = [message]
    ∧ PostHog.properties message !! "$ai_is_error" = Some (VBool true)
    ∧ PostHog.properties message !! "$ai_error" = None.
Proof.
  eexists. split; [reflexivity |]. by vm_compute.
Qed.

Lemma sought_of (s sc r : value) :
  (if is_number s then s
   else if is_number sc then sc
   else if truthy r && is_object r
        then if is_number (get r "status") then get r "status" else VUndefined
        else VUndefined)
  = match
      match numeric s with
      | Some n => Some n
      | None =>
          match numeric sc with
          | Some n => Some n
          | None => numeric (get r "status")
          end
      end
    with
    | Some n => VNum n
    | None => VUndefined
    end.
Proof.
  destruct s; try done; destruct sc; try done; cbn [is_number numeric].
  all: destruct r as [| |?|[|?]|?|?|?|? ? ? ?]; try done.
  all: cbn [truthy is_object andb]; rewrite ?andb_false_r, ?andb_true_r;
    try done.
  all: try (destruct (get _ "status"); done).
  all: try (by case_match).
Qed.

(** The code's lookup finds what the design's wording describes. *)
Lemma extractHttpStatus_sought err :
  extractHttpStatus err
  = match statusSought err with
    | Some n => VNum n
    | None => VUndefined
    end.
Proof.
  unfold extractHttpStatus, statusSought.
  destruct (truthy err && is_object err) eqn:E; [apply sought_of |].
  destruct err as [| |?|?|?|?|?|? ? ? ?]; try done.
Qed.

(** C5, as amended. The status lookup checks a numeric [status], then a
    numeric [statusCode], then a numeric [status] of the nested [response];
    the recorded status is the number found when that number is neither 0
    nor NaN, and 500 when nothing is found or the number found is 0 or NaN.
    It is what the event of a failed [run] carries under [$ai_http_status],
    unless the custom properties set that key. *)
Theorem recorded_status_is_found_truthy_or_500 err :
  extractHttpStatus err
  = match statusSought err with
    | Some n => VNum n
    | None => VUndefined
    end
  ∧ l_httpStatus (caught err declared)
    = match statusSought err with
      | Some (Int z) => if decide (z = 0%Z) then num 500 else num z
      | Some NaN | None => num 500
      end
  ∧ ∀ getElapsed model options this,
      ∃ message,
        posthog (run (throwing err) getElapsed model options this).2
        = posthog this ++ [message]
        ∧ PostHog.properties message !! "$ai_http_status"
          = match own_enumerable
                    (get (VObj (posthogParams (extractPostHogParams options)))
                       "posthogProperties") !! "$ai_http_status" with
            | Some v => Some v
            | None => Some (l_httpStatus (caught err declared))
            end.
Proof.
  split; [apply extractHttpStatus_sought |]. split.
  - cbn [caught l_httpStatus]. rewrite extractHttpStatus_sought.
    destruct (statusSought err) as [[|z]|]; try done.
    unfold or, num. cbn [truthy].
    case_decide as Hz; [by subst |].
    by rewrite (proj2 (Z.eqb_neq z 0) Hz).
  - intros getElapsed model options this. eexists. split; [reflexivity |].
    cbn [Capture.generationMessage PostHog.properties].
    rewrite generationProperties_union, lookup_union.
    rewrite lookup_generated_http_status.
    cbn [runOptions Types.customProperties Types.httpStatus throwing].
    by destruct (_ !! _).
Qed.

(** C5 as stated fails: an error with the numeric status 0 has a status
    that the lookup finds, and the recorded status is 500 all the same. *)
Lemma zero_status_counterexample :
  statusSought statusZero = Some (Int 0)
  ∧ l_httpStatus (caught statusZero declared) = num 500
  ∧ ∃ message,
      posthog (run (throwing statusZero) (num 0) "openai/clip" plainOptions
                 fresh).2 = [message]
      ∧ PostHog.properties message !! "$ai_http_status" = Some (num 500).
Proof.
  split; [done |]. split; [done |].
  eexists. split; [reflexivity |]. by vm_compute.
Qed.

(** C10. An empty distinct id is captured as ["anonymous"], and the message
    is the very one captured for every other falsy distinct id, the
    [undefined] of a missing one among them. *)
Theorem empty_distinct_id_is_anonymous posthog options :
  ∃ message,
    Capture.captureGeneration posthog (identifiedBy (VStr "") options)
    = posthog ++ [message]
    ∧ PostHog.distinctId message = VStr "anonymous"
    ∧ Capture.captureGeneration posthog (identifiedBy VUndefined options)
      = posthog ++ [message]
    ∧ ∀ distinctId, truthy distinctId = false →
        Capture.captureGeneration posthog (identifiedBy distinctId options)
        = posthog ++ [message].
Proof.
  eexists. split; [reflexivity |]. split; [done |]. split; [done |].
  intros distinctId Hfalsy.
  unfold Capture.captureGeneration, PostHog.capture, Capture.generationMessage.
  cbn [identifiedBy Types.distinctId]. unfold or. rewrite Hfalsy.
  reflexivity.
Qed.

(** ** Streaming *)

(** C6. Iterating [stream] to its end yields the chunks of the underlying
    stream, in order and unchanged, and ends as the underlying stream ends;
    nothing is captured while chunks are relayed, and one message is
    captured when the underlying stream is exhausted or throws.  It comes
    from capture options with [stream] true and [output] the concatenation
    of the data of the chunks tagged ["output"], or [undefined] when that is
    empty; in the event these show as [$ai_stream] and, outside privacy
    mode, [$ai_output_choices], unless the custom properties set the key. *)
Theorem stream_relays_chunks_and_captures_once
    super_stream getElapsed model options this :
  let ex := extractPostHogParams options in
  let upstream := super_stream model (replicateOptions ex) in
  let text := outputText (chunks upstream) in
  let handed := captured (Stream super_stream getElapsed model options) this in
  let message := Capture.generationMessage handed in
  let custom :=
    own_enumerable (get (VObj (posthogParams ex)) "posthogProperties") in
  (∀ extra : nat,
     for_await super_stream getElapsed (S (length (chunks upstream) + extra))
       (stream model options) this
     = Some (chunks upstream, ending (failure upstream),
             {| posthog := posthog this ++ [message];
                predictionTrackingParams := predictionTrackingParams this |}))
  ∧ (∀ n : nat, (n ≤ length (chunks upstream))%nat →
       ∃ g, nexts super_stream getElapsed n (stream model options) this
            = (Yielded <$> take n (chunks upstream), g, this))
  ∧ Types.stream handed = VBool true
  ∧ Types.output handed = (if decide (text = "") then VUndefined else VStr text)
  ∧ PostHog.properties message !! "$ai_stream"
    = match custom !! "$ai_stream" with
      | Some v => Some v
      | None => Some (VBool true)
      end
  ∧ PostHog.properties message !! "$ai_output_choices"
    = match custom !! "$ai_output_choices" with
      | Some v => Some v
      | None =>
          if truthy (get (VObj (posthogParams ex)) "posthogPrivacyMode")
             || bool_decide (text = "")
          then None
          else Some (Capture.formatOutput (VStr text))
      end.
Proof.
  intros ex upstream text handed message custom.
  assert (Types.output handed
          = if decide (text = "") then VUndefined else VStr text) as Houtput.
  { subst handed. cbn [captured streamOptions Types.output].
    fold ex upstream text. unfold or. cbn [truthy].
    destruct (String.eqb_spec text ""); by case_decide. }
  split; [| split; [| split; [done | split; [done |]]]].
  - intros extra.
    pose proof (for_await_stream super_stream getElapsed model options this
                  (S (length (chunks upstream) + extra))) as H.
    cbv zeta in H. rewrite H; [done |]. subst upstream ex. lia.
  - intros n Hn. by apply nexts_stream.
  - subst message. cbn [Capture.generationMessage PostHog.properties].
    rewrite !generationProperties_union, !lookup_union.
    rewrite lookup_generated_stream, lookup_generated_output, Houtput.
    subst handed. cbn [captured streamOptions Types.customProperties
                       Types.stream Types.privacyMode defined].
    fold ex custom. split; [by destruct (custom !! _) |].
    destruct (custom !! _); [by repeat case_match |].
    destruct (truthy _); [done |]. cbn [negb andb orb].
    case_decide; case_bool_decide; done.
Qed.

(** ** Correlation of create and get *)

(** An options object given to [predictions.get] supplies all five tracking
    keys, so the merge takes every tracking option from it and none from
    the stored ones. *)
Lemma provided_options_shadow_stored predictionId options this k :
  k ∈ trackingKeys →
  get (VObj (mergedParams predictionId (Some options) this)) k
  = of_option (options !! k).
Proof.
  intros Hk. unfold mergedParams, spread, providedParams, get, of_option.
  erewrite lookup_union_Some_l; [done |].
  unfold trackingKeys in Hk. cbn [extractPostHogParams posthogParams].
  set_unfold; destruct_or!; subst; by simplify_map_eq.
Qed.

(** Without an options object the stored tracking options are the ones in
    force. *)
Lemma no_options_keep_stored predictionId this :
  mergedParams predictionId None this = storedParams predictionId this.
Proof.
  unfold mergedParams, spread, providedParams. by rewrite (left_id_L ∅ (∪)).
Qed.

(** C7 fails on the code. After a create with a distinct id, a get for the
    returned id whose options carry only a trace id captures the event for
    ["anonymous"]: the stored distinct id is shadowed by the [undefined] one
    of the get options. *)
Theorem get_options_shadow_create_params :
  get (VObj (storedParams "pred_123" afterCreate)) "posthogDistinctId"
  = VStr "user_1"
  ∧ tracedGetOptions !! "posthogDistinctId" = None
  ∧ ∃ message,
      posthog (getPrediction fetching (num 0) "pred_123"
                 (Some tracedGetOptions) afterCreate).2
      = posthog afterCreate ++ [message]
      ∧ PostHog.distinctId message = VStr "anonymous"
      ∧ PostHog.properties message !! "$ai_trace_id" = Some (VStr "trace_9").
Proof.
  split; [by vm_compute |]. split; [done |].
  eexists. split; [reflexivity |]. by vm_compute.
Qed.

Lemma isCompleted_terminal status :
  isCompleted status = true ↔ ∃ s, status = VStr s ∧ s ∈ terminal.
Proof.
  unfold isCompleted, is_string, terminal.
  destruct status as [| |?|?|s|?|?|? ? ? ?];
    try (split; [done | by intros (? & ? & ?)]).
  rewrite !orb_true_iff, !String.eqb_eq.
  split.
  - intros Hs. exists s. rewrite !elem_of_cons. tauto.
  - intros (t & Ht & Hin). injection Ht as ->.
    rewrite !elem_of_cons, elem_of_nil in Hin. tauto.
Qed.

(** C8. A get that observes a terminal status removes the entry of its
    prediction id, so a later get for that id merges nothing stored into its
    tracking options; a get that observes any other status, or none, leaves
    the map as it was. *)
Theorem terminal_status_purges_tracking_params
    originalPredictionsGet getElapsed predictionId options this :
  let call := originalPredictionsGet predictionId (signalOnly options) in
  let this' :=
    (getPrediction originalPredictionsGet getElapsed predictionId options
       this).2 in
  (∀ status, statusOf call = VStr status → status ∈ terminal →
     predictionTrackingParams this'
     = delete predictionId (predictionTrackingParams this)
     ∧ predictionTrackingParams this' !! predictionId = None
     ∧ ∀ later, mergedParams predictionId later this' = providedParams later)
  ∧ ((∀ status, statusOf call = VStr status → status ∉ terminal) →
     predictionTrackingParams this' = predictionTrackingParams this).
Proof.
  intros call this'.
  assert (predictionTrackingParams this'
          = if isCompleted (statusOf call)
            then delete predictionId (predictionTrackingParams this)
            else predictionTrackingParams this) as Hmap.
  { subst this' call. unfold getPrediction.
    destruct (originalPredictionsGet _ _) as [v|err];
      cbn [snd capturing predictionTrackingParams statusOf result assigned
           caught declared];
      unfold cleanup; by case_match. }
  split.
  - intros status Hstatus Hterminal.
    assert (isCompleted (statusOf call) = true) as Hc
      by (apply isCompleted_terminal; eauto).
    rewrite Hc in Hmap. split; [done |].
    assert (predictionTrackingParams this' !! predictionId = None) as Hnone
      by (rewrite Hmap; apply lookup_delete_eq).
    split; [done |]. intros later.
    unfold mergedParams, spread, storedParams. rewrite Hnone.
    apply (right_id_L ∅ (∪)).
  - intros Hnot. destruct (isCompleted (statusOf call)) eqn:Hc; [| done].
    apply isCompleted_terminal in Hc as (s & Hs & Hin).
    by destruct (Hnot s Hs).
Qed.

(** * Further properties of the code *)

(** ** Splitting the options *)

Lemma elem_of_trackingKeys k :
  k ∈ trackingKeys
  ↔ k = "posthogDistinctId" ∨ k = "posthogTraceId" ∨ k = "posthogProperties"
    ∨ k = "posthogGroups" ∨ k = "posthogPrivacyMode".
Proof. unfold trackingKeys. rewrite !elem_of_cons, elem_of_nil. tauto. Qed.

Lemma lookup_replicateOptions options k :
  replicateOptions (extractPostHogParams options) !! k
  = (if decide (k ∈ trackingKeys) then None else options !! k).
Proof.
  cbn [extractPostHogParams replicateOptions trackingKeys foldr].
  case_decide as Hk; rewrite elem_of_trackingKeys in Hk.
  - destruct_or!; subst k; by simplify_map_eq.
  - assert (k ≠ "posthogDistinctId" ∧ k ≠ "posthogTraceId"
            ∧ k ≠ "posthogProperties" ∧ k ≠ "posthogGroups"
            ∧ k ≠ "posthogPrivacyMode") as (? & ? & ? & ? & ?) by tauto.
    by simplify_map_eq.
Qed.

Lemma lookup_posthogParams options k :
  posthogParams (extractPostHogParams options) !! k
  = (if decide (k ∈ trackingKeys) then Some (of_option (options !! k))
     else None).
Proof.
  cbn [extractPostHogParams posthogParams trackingKeys
       fmap list_fmap list_to_map uncurry fst snd].
  case_decide as Hk; rewrite elem_of_trackingKeys in Hk.
  - destruct_or!; subst k; by simplify_map_eq.
  - assert (k ≠ "posthogDistinctId" ∧ k ≠ "posthogTraceId"
            ∧ k ≠ "posthogProperties" ∧ k ≠ "posthogGroups"
            ∧ k ≠ "posthogPrivacyMode") as (? & ? & ? & ? & ?) by tauto.
    by simplify_map_eq.
Qed.

Lemma get_posthogParams options k :
  k ∈ trackingKeys →
  get (VObj (posthogParams (extractPostHogParams options))) k
  = of_option (options !! k).
Proof.
  intros Hk. unfold get. rewrite lookup_posthogParams.
  by rewrite decide_True.
Qed.

(** X1. [extractPostHogParams] splits the options: the options passed on to
    the client hold no tracking key and every other key unchanged; the
    tracking options hold exactly the five tracking keys, each with the
    value the options have for it or [undefined]. *)
Theorem extractPostHogParams_splits options k :
  (k ∈ trackingKeys →
   replicateOptions (extractPostHogParams options) !! k = None
   ∧ posthogParams (extractPostHogParams options) !! k
     = Some (of_option (options !! k)))
  ∧ (k ∉ trackingKeys →
     replicateOptions (extractPostHogParams options) !! k = options !! k
     ∧ posthogParams (extractPostHogParams options) !! k = None).
Proof.
  rewrite lookup_replicateOptions, lookup_posthogParams.
  split; intros Hk; by case_decide.
Qed.

(** X2. The split loses nothing: reading any key from the two parts put
    together again gives what the options give. *)
Theorem extractPostHogParams_loses_nothing options k :
  get (VObj (spread (replicateOptions (extractPostHogParams options))
               (posthogParams (extractPostHogParams options)))) k
  = get (VObj options) k.
Proof.
  unfold spread, get.
  rewrite lookup_union, lookup_replicateOptions, lookup_posthogParams.
  case_decide; [done |]. by destruct (options !! k).
Qed.
(** ** How the operations end and what their events hold *)

Lemma perform_event op this :
  ∃ this',
    perform op this = Some (delegated op, this')
    ∧ posthog this'
      = posthog this ++ [Capture.generationMessage (captured op this)]
    ∧ Capture.generationProperties (captured op this)
      = (wrapperProperties op (delegated op)
         ∪ own_enumerable (get (VObj (tracking op this)) "posthogProperties"))
        ∪ Capture.generatedProperties (captured op this).
Proof.
  destruct (perform_captured op this) as (c & this' & Hp & Hlog & Hcustom).
  assert (c = delegated op) as ->.
  { destruct op as [f t m o | f t m o | f t o | f t id o];
      unfold perform, delegated in *.
    - unfold run in Hp. destruct (f m _); by injection Hp as <- _.
    - pose proof (for_await_stream f t m o this _ (Nat.lt_succ_diag_r _)) as H.
      cbv zeta in H. rewrite H in Hp. by injection Hp as <- _.
    - unfold createPrediction in Hp. destruct (f _); by injection Hp as <- _.
    - unfold getPrediction in Hp. destruct (f id _); by injection Hp as <- _. }
  exists this'. split; [done |]. split; [done |].
  by rewrite generationProperties_union, Hcustom.
Qed.

(** Under a key that the wrapper does not write into the custom
    properties, the event has the caller's custom value if there is one and
    else what [captureGeneration] generated. *)
Lemma lookup_event op this k :
  wrapperProperties op (delegated op) !! k = None →
  Capture.generationProperties (captured op this) !! k
  = match own_enumerable (get (VObj (tracking op this)) "posthogProperties")
            !! k with
    | Some v => Some v
    | None => Capture.generatedProperties (captured op this) !! k
    end.
Proof.
  intros Hw. destruct (perform_event op this) as (this' & _ & _ & ->).
  rewrite !lookup_union, Hw. by repeat destruct (_ !! k).
Qed.

(** Whose event it is: the distinct id and the groups of the tracking
    options in force. *)
Lemma event_identity op this :
  PostHog.distinctId (Capture.generationMessage (captured op this))
  = or (get (VObj (tracking op this)) "posthogDistinctId") (VStr "anonymous")
  ∧ PostHog.groups (Capture.generationMessage (captured op this))
    = get (VObj (tracking op this)) "posthogGroups".
Proof. by destruct op. Qed.

(** X3. Each of the four operations ends as the call it delegates to ends:
    with the value that call returned or the error it threw ([stream]: with
    the end or the error of the underlying iteration). *)
Theorem operations_end_as_delegated op this :
  ∃ this', perform op this = Some (delegated op, this').
Proof.
  destruct (perform_event op this) as (this' & Hp & _). by exists this'.
Qed.

(** X4. Every captured message is a [$ai_generation] event whose property
    bag has the six core keys, whatever the options and the custom
    properties are. *)
Theorem core_properties_always_present posthog options :
  ∃ message,
    Capture.captureGeneration posthog options = posthog ++ [message]
    ∧ PostHog.event message = "$ai_generation"
    ∧ Forall (λ k, is_Some (PostHog.properties message !! k)) coreKeys.
Proof.
  eexists. split; [reflexivity |]. split; [done |].
  cbn [Capture.generationMessage PostHog.properties].
  rewrite generationProperties_union.
  assert (Forall (λ k, is_Some (Capture.generatedProperties options !! k))
            coreKeys) as Hcore.
  { unfold coreKeys. repeat constructor; eexists; bag. }
  eapply Forall_impl; [exact Hcore |].
  intros k [v Hv]. rewrite lookup_union.
  destruct (own_enumerable _ !! k); rewrite Hv; by eexists.
Qed.

Lemma lookup_generated_trace_id options :
  Capture.generatedProperties options !! "$ai_trace_id"
  = if truthy (Types.traceId options)
    then Some (Types.traceId options) else None.
Proof. bag. Qed.

(** The wrapper's own custom entries lie under none of the keys that
    [captureGeneration] generates. *)
Lemma wrapperProperties_generated op c :
  wrapperProperties op c !! "$ai_model" = None
  ∧ wrapperProperties op c !! "$ai_http_status" = None
  ∧ wrapperProperties op c !! "$ai_is_error" = None
  ∧ wrapperProperties op c !! "$ai_error" = None
  ∧ wrapperProperties op c !! "$ai_input" = None
  ∧ wrapperProperties op c !! "$ai_output_choices" = None
  ∧ wrapperProperties op c !! "$ai_trace_id" = None
  ∧ wrapperProperties op c !! "$ai_stream" = None
  ∧ wrapperProperties op c !! "$ai_prediction_id" = None.
Proof. destruct op; vm_compute; repeat split. Qed.

Ltac generated_key :=
  match goal with
  | |- wrapperProperties ?op ?c !! _ = None =>
      let H := fresh in
      pose proof (wrapperProperties_generated op c) as H;
      repeat (let H' := fresh in destruct H as [H' H]; try exact H');
      exact H
  end.

(** X5. The tracking options in force reach the event of every operation:
    the distinct id (["anonymous"] when falsy), the groups as they are, and
    the trace id under [$ai_trace_id] when it is truthy (the key is absent
    otherwise), unless the custom properties set that key. *)
Theorem tracking_options_reach_event op this :
  let params := VObj (tracking op this) in
  ∃ this' message,
    perform op this = Some (delegated op, this')
    ∧ posthog this' = posthog this ++ [message]
    ∧ PostHog.distinctId message
      = or (get params "posthogDistinctId") (VStr "anonymous")
    ∧ PostHog.groups message = get params "posthogGroups"
    ∧ PostHog.properties message !! "$ai_trace_id"
      = match own_enumerable (get params "posthogProperties")
              !! "$ai_trace_id" with
        | Some v => Some v
        | None =>
            if truthy (get params "posthogTraceId")
            then Some (get params "posthogTraceId")
            else None
        end.
Proof.
  intros params.
  destruct (perform_event op this) as (this' & Hp & Hlog & _).
  exists this', (Capture.generationMessage (captured op this)).
  split; [done |]. split; [done |].
  destruct (event_identity op this) as [Hdistinct Hgroups].
  split; [done |]. split; [done |].
  cbn [Capture.generationMessage PostHog.properties].
  rewrite lookup_event by generated_key.
  fold params. destruct (_ !! _); [done |].
  assert (Types.traceId (captured op this) = get params "posthogTraceId")
    as Htrace by (by destruct op).
  by rewrite lookup_generated_trace_id, Htrace.
Qed.

(** X6. When the delegated call throws [err], the operation rethrows it and
    its event is flagged as an error, carries the status recorded for [err]
    and, if [err] is truthy, the formatted [err] (no [$ai_error] key
    otherwise), unless the custom properties set these keys. *)
Theorem failure_event op this err :
  delegated op = Throw err →
  let custom :=
    own_enumerable (get (VObj (tracking op this)) "posthogProperties") in
  ∃ this' message,
    perform op this = Some (Throw err, this')
    ∧ posthog this' = posthog this ++ [message]
    ∧ PostHog.properties message !! "$ai_is_error"
      = unlessCustom custom "$ai_is_error" (Some (VBool true))
    ∧ PostHog.properties message !! "$ai_http_status"
      = unlessCustom custom "$ai_http_status"
          (Some (or (extractHttpStatus err) (num 500)))
    ∧ PostHog.properties message !! "$ai_error"
      = unlessCustom custom "$ai_error"
          (if truthy err then Some (Capture.formatError err) else None).
Proof.
  intros Hthrow custom.
  destruct (perform_event op this) as (this' & Hp & Hlog & _).
  rewrite Hthrow in Hp.
  exists this', (Capture.generationMessage (captured op this)).
  split; [done |]. split; [done |].
  cbn [Capture.generationMessage PostHog.properties].
  rewrite !lookup_event by generated_key.
  fold custom. unfold unlessCustom.
  rewrite lookup_generated_is_error, lookup_generated_http_status,
    lookup_generated_error.
  assert (Types.isError (captured op this) = VBool true
          ∧ Types.httpStatus (captured op this)
            = or (extractHttpStatus err) (num 500)
          ∧ (Types.error (captured op this) = err
             ∨ Types.error (captured op this) = or err VUndefined))
    as (-> & -> & Herror).
  { destruct op as [f t m o | f t m o | f t o | f t id o];
      unfold delegated in Hthrow; unfold captured.
    - rewrite Hthrow. split; [done |]. split; [done |]. by left.
    - destruct (failure _) as [e|]; [| done]. injection Hthrow as ->.
      split; [done |]. split; [done |]. by left.
    - rewrite Hthrow. split; [done |]. split; [done |]. by left.
    - rewrite Hthrow. split; [done |]. split; [done |]. by right. }
  split; [done |]. split; [done |].
  destruct (custom !! "$ai_error"); [done |].
  cbn [truthy andb].
  destruct Herror as [-> | ->]; [done |].
  unfold or. by destruct (truthy err) eqn:E; rewrite ?E.
Qed.

Lemma failure_event_witness :
  ∃ this' message,
    perform (Run (throwing (VStr "boom")) (num 0) "openai/clip" plainOptions)
      fresh = Some (Throw (VStr "boom"), this')
    ∧ posthog this' = posthog fresh ++ [message]
    ∧ PostHog.properties message !! "$ai_is_error" = Some (VBool true)
    ∧ PostHog.properties message !! "$ai_http_status" = Some (num 500)
    ∧ PostHog.properties message !! "$ai_error" = Some (VStr "boom").
Proof.
  pose proof (failure_event
                (Run (throwing (VStr "boom")) (num 0) "openai/clip"
                   plainOptions)
                fresh (VStr "boom") eq_refl) as H.
  vm_compute in H. vm_compute. exact H.
Defined.

(** X7. When the delegated call returns [v], the operation returns [v] and
    its event carries status 200.  It is flagged as an error only by
    [predictions.get] when the fetched prediction has status ["failed"]; the
    error detail is then the prediction's [error] if that is truthy, and
    there is no [$ai_error] key in every other case (unless the custom
    properties set these keys). *)
Theorem success_event op this v :
  delegated op = Return v →
  let custom :=
    own_enumerable (get (VObj (tracking op this)) "posthogProperties") in
  ∃ this' message,
    perform op this = Some (Return v, this')
    ∧ posthog this' = posthog this ++ [message]
    ∧ PostHog.properties message !! "$ai_http_status"
      = unlessCustom custom "$ai_http_status" (Some (num 200))
    ∧ PostHog.properties message !! "$ai_is_error"
      = unlessCustom custom "$ai_is_error"
          (Some (VBool (reportedFailed op v)))
    ∧ PostHog.properties message !! "$ai_error"
      = unlessCustom custom "$ai_error"
          (if reportedFailed op v && truthy (get v "error")
           then Some (Capture.formatError (get v "error"))
           else None).
Proof.
  intros Hreturn custom.
  destruct (perform_event op this) as (this' & Hp & Hlog & _).
  rewrite Hreturn in Hp.
  exists this', (Capture.generationMessage (captured op this)).
  split; [done |]. split; [done |].
  cbn [Capture.generationMessage PostHog.properties].
  rewrite !lookup_event by generated_key.
  fold custom. unfold unlessCustom.
  rewrite lookup_generated_is_error, lookup_generated_http_status,
    lookup_generated_error.
  assert (Types.isError (captured op this) = VBool (reportedFailed op v)
          ∧ Types.httpStatus (captured op this) = num 200
          ∧ Types.error (captured op this)
            = if reportedFailed op v then get v "error" else VUndefined)
    as (-> & -> & ->).
  { destruct op as [f t m o | f t m o | f t o | f t id o];
      unfold delegated in Hreturn; unfold captured, reportedFailed.
    - by rewrite Hreturn.
    - by destruct (failure _).
    - by rewrite Hreturn.
    - rewrite Hreturn. done. }
  split; [done |]. split; [done |].
  destruct (custom !! "$ai_error"); [done |].
  cbn [truthy]. by destruct (reportedFailed op v).
Qed.

Lemma success_event_witness :
  ∃ this' message,
    perform (Get fetchingFailed (num 0) "pred_123" None) fresh
    = Some (Return (VObj (list_to_map [("id", VStr "pred_123");
                                       ("status", VStr "failed")])), this')
    ∧ posthog this' = posthog fresh ++ [message]
    ∧ PostHog.properties message !! "$ai_http_status" = Some (num 200)
    ∧ PostHog.properties message !! "$ai_is_error" = Some (VBool true)
    ∧ PostHog.properties message !! "$ai_error" = None.
Proof.
  pose proof (success_event
                (Get fetchingFailed (num 0) "pred_123" None) fresh _ eq_refl) as H.
  vm_compute in H. vm_compute. exact H.
Defined.

Lemma lookup_generated_model options :
  Capture.generatedProperties options !! "$ai_model"
  = Some (Types.model options).
Proof. bag. Qed.

Lemma lookup_generated_prediction_id options :
  Capture.generatedProperties options !! "$ai_prediction_id"
  = if truthy (Types.predictionId options)
    then Some (Types.predictionId options) else None.
Proof. bag. Qed.

(** X8. The event of a [predictions.get] that fetched the prediction [v]
    is built from [v], not from the call's options: the model is [v.model],
    else [v.version], else ["unknown"]; the input is [v.input]; the output
    is [v.output] only when the status is ["succeeded"]; the prediction id
    is the id asked for.  Input and output are left out in privacy mode, and
    each of these keys yields to a custom property of the same name. *)
Theorem get_event_follows_prediction
    originalPredictionsGet getElapsed predictionId options this v :
  originalPredictionsGet predictionId (signalOnly options) = Return v →
  let params := VObj (mergedParams predictionId options this) in
  let custom := own_enumerable (get params "posthogProperties") in
  let private := truthy (get params "posthogPrivacyMode") in
  ∃ this' message,
    getPrediction originalPredictionsGet getElapsed predictionId options this
    = (Return v, this')
    ∧ posthog this' = posthog this ++ [message]
    ∧ PostHog.properties message !! "$ai_model"
      = unlessCustom custom "$ai_model"
          (Some (VStr (ToString (or (or (get v "model") (get v "version"))
                                    (VStr "unknown")))))
    ∧ PostHog.properties message !! "$ai_input"
      = unlessCustom custom "$ai_input"
          (if negb private && defined (get v "input")
           then Some (Capture.formatInput (get v "input")) else None)
    ∧ PostHog.properties message !! "$ai_output_choices"
      = unlessCustom custom "$ai_output_choices"
          (if negb private && is_string "succeeded" (get v "status")
              && defined (get v "output")
           then Some (Capture.formatOutput (get v "output")) else None)
    ∧ PostHog.properties message !! "$ai_prediction_id"
      = unlessCustom custom "$ai_prediction_id"
          (if String.eqb predictionId "" then None
           else Some (VStr predictionId)).
Proof.
  intros Hreturn params custom private.
  pose proof (perform_event
                (Get originalPredictionsGet getElapsed predictionId options)
                this) as (this' & Hp & Hlog & _).
  unfold perform, delegated in Hp. rewrite Hreturn in Hp.
  injection Hp as Hp.
  exists this', (Capture.generationMessage
                   (captured (Get originalPredictionsGet getElapsed
                                predictionId options) this)).
  split; [done |]. split; [done |].
  unfold Capture.generationMessage, PostHog.properties.
  pose proof (lookup_event
                (Get originalPredictionsGet getElapsed predictionId options)
                this) as Hl.
  unfold tracking in Hl. fold params custom in Hl.
  rewrite !Hl by generated_key.
  clear Hl. unfold unlessCustom.
  rewrite lookup_generated_model, lookup_generated_input,
    lookup_generated_output, lookup_generated_prediction_id.
  unfold captured. rewrite Hreturn.
  unfold getOptions, locals, assigned, declared.
  unfold Types.model, Types.input, Types.output, Types.privacyMode,
    Types.predictionId, result.
  fold params private.
  split; [done |]. split; [done |]. split.
  - destruct (custom !! _); [done |]. destruct private; [done |].
    cbn [negb andb]. by destruct (is_string "succeeded" _).
  - cbn [truthy]. by destruct (String.eqb predictionId "").
Qed.

Lemma get_event_follows_prediction_witness :
  ∃ this' message,
    getPrediction fetchingFailed (num 0) "pred_123" None fresh
    = (Return (VObj (list_to_map [("id", VStr "pred_123");
                                  ("status", VStr "failed")])), this')
    ∧ posthog this' = posthog fresh ++ [message]
    ∧ PostHog.properties message !! "$ai_model" = Some (VStr "unknown")
    ∧ PostHog.properties message !! "$ai_input" = None
    ∧ PostHog.properties message !! "$ai_output_choices" = None
    ∧ PostHog.properties message !! "$ai_prediction_id"
      = Some (VStr "pred_123").
Proof.
  pose proof (get_event_follows_prediction fetchingFailed (num 0)
                "pred_123" None fresh _ eq_refl) as H.
  vm_compute in H. vm_compute. exact H.
Defined.

(** X9. The event of a [predictions.create] never reports an output or a
    streaming flag of the wrapper's making, whatever the call returned; its
    model is the options' [model], else their [version], else ["unknown"],
    and it carries the id of the returned prediction when that is truthy
    (no [$ai_prediction_id] when the call threw). *)
Theorem create_event_has_no_output
    originalPredictionsCreate getElapsed options this :
  let ex := extractPostHogParams options in
  let call := originalPredictionsCreate (replicateOptions ex) in
  let custom :=
    own_enumerable (get (VObj (posthogParams ex)) "posthogProperties") in
  let id :=
    match call with
    | Return prediction => get prediction "id"
    | Throw _ => VUndefined
    end in
  ∃ this' message,
    createPrediction originalPredictionsCreate getElapsed options this
    = (call, this')
    ∧ posthog this' = posthog this ++ [message]
    ∧ PostHog.properties message !! "$ai_output_choices"
      = custom !! "$ai_output_choices"
    ∧ PostHog.properties message !! "$ai_stream" = custom !! "$ai_stream"
    ∧ PostHog.properties message !! "$ai_model"
      = unlessCustom custom "$ai_model"
          (Some (VStr (ToString
                         (or (or (get (VObj (replicateOptions ex)) "model")
                                 (get (VObj (replicateOptions ex)) "version"))
                             (VStr "unknown")))))
    ∧ PostHog.properties message !! "$ai_prediction_id"
      = unlessCustom custom "$ai_prediction_id"
          (if truthy id then Some id else None).
Proof.
  intros ex call custom id.
  pose proof (perform_event
                (Create originalPredictionsCreate getElapsed options) this)
    as (this' & Hp & Hlog & _).
  unfold perform, delegated in Hp. fold ex call in Hp. injection Hp as Hp.
  exists this', (Capture.generationMessage
                   (captured (Create originalPredictionsCreate getElapsed
                                options) this)).
  split; [done |]. split; [done |].
  unfold Capture.generationMessage, PostHog.properties.
  pose proof (lookup_event
                (Create originalPredictionsCreate getElapsed options) this)
    as Hl.
  unfold tracking in Hl. fold ex custom in Hl.
  rewrite !Hl by generated_key.
  clear Hl. unfold unlessCustom.
  rewrite lookup_generated_model, lookup_generated_stream,
    lookup_generated_output, lookup_generated_prediction_id.
  unfold captured. fold ex call.
  unfold createOptions.
  unfold Types.model, Types.output, Types.stream, Types.predictionId.
  cbn [defined]. rewrite andb_false_r.
  split; [by destruct (custom !! _) |].
  split; [by destruct (custom !! _) |].
  split; [done |].
  subst id. by destruct call.
Qed.

(** ** The correlation map *)

Lemma someDefined_lookup (o : object) :
  someDefined o = true ↔ ∃ k v, o !! k = Some v ∧ defined v = true.
Proof.
  unfold someDefined. rewrite existsb_exists. split.
  - intros ([k v] & Hin & Hv). exists k, v. split; [| done].
    by apply elem_of_map_to_list, list_elem_of_In.
  - intros (k & v & Hkv & Hv). exists (k, v). split; [| done].
    by apply list_elem_of_In, elem_of_map_to_list.
Qed.

(** At least one tracking option has a defined value. *)
Lemma someDefined_tracking options :
  someDefined (posthogParams (extractPostHogParams options)) = true
  ↔ ∃ k, k ∈ trackingKeys ∧ defined (of_option (options !! k)) = true.
Proof.
  rewrite someDefined_lookup. split.
  - intros (k & v & Hkv & Hv). exists k.
    rewrite lookup_posthogParams in Hkv. case_decide; [| done].
    injection Hkv as <-. done.
  - intros (k & Hk & Hv). exists k, (of_option (options !! k)).
    rewrite lookup_posthogParams. by case_decide.
Qed.

Lemma createPrediction_stored
    originalPredictionsCreate getElapsed options this :
  predictionTrackingParams
    (createPrediction originalPredictionsCreate getElapsed options this).2
  = match originalPredictionsCreate
            (replicateOptions (extractPostHogParams options)) with
    | Return prediction =>
        predictionTrackingParams
          (remember (get prediction "id")
             (posthogParams (extractPostHogParams options)) this)
    | Throw _ => predictionTrackingParams this
    end.
Proof.
  unfold createPrediction. destruct (originalPredictionsCreate _); reflexivity.
Qed.

Lemma remember_stores id posthogParams this :
  id ≠ "" → someDefined posthogParams = true →
  predictionTrackingParams (remember (VStr id) posthogParams this)
  = <[id := posthogParams]> (predictionTrackingParams this).
Proof.
  intros Hne Hsome. unfold remember. rewrite Hsome. cbn [truthy].
  rewrite (proj2 (String.eqb_neq id "") Hne). reflexivity.
Qed.

(** X10. [predictions.create] stores the five tracking options under the
    id of the returned prediction when that id is a non-empty string and at
    least one tracking option has a defined value, overwriting an earlier
    entry of that id; it stores nothing when no tracking option is defined,
    when the returned prediction has no truthy id, or when the call threw. *)
Theorem create_stores_tracking_entry
    originalPredictionsCreate getElapsed options this :
  let ex := extractPostHogParams options in
  let call := originalPredictionsCreate (replicateOptions ex) in
  let stored :=
    predictionTrackingParams
      (createPrediction originalPredictionsCreate getElapsed options this).2 in
  (∀ prediction id,
     call = Return prediction → get prediction "id" = VStr id → id ≠ "" →
     (∃ k, k ∈ trackingKeys ∧ defined (of_option (options !! k)) = true) →
     stored = <[id := posthogParams ex]> (predictionTrackingParams this))
  ∧ ((∀ k, k ∈ trackingKeys → of_option (options !! k) = VUndefined) →
     stored = predictionTrackingParams this)
  ∧ (∀ prediction,
       call = Return prediction → truthy (get prediction "id") = false →
       stored = predictionTrackingParams this)
  ∧ (∀ err, call = Throw err → stored = predictionTrackingParams this).
Proof.
  intros ex call stored. subst stored.
  rewrite createPrediction_stored. fold ex call.
  split; [| split; [| split]].
  - intros prediction id Hcall Hid Hne Hsome.
    apply someDefined_tracking in Hsome. fold ex in Hsome.
    rewrite Hcall, Hid. by apply remember_stores.
  - intros Hnone. destruct call as [prediction|err]; [| reflexivity].
    unfold remember.
    destruct (someDefined (posthogParams ex)) eqn:Hsome.
    + apply someDefined_tracking in Hsome as (k & Hk & Hv).
      rewrite (Hnone k Hk) in Hv. discriminate.
    + rewrite andb_false_r. destruct (get prediction "id"); reflexivity.
  - intros prediction Hcall Hid. rewrite Hcall. unfold remember.
    destruct (get prediction "id"); try reflexivity. by rewrite Hid.
  - intros err ->. reflexivity.
Qed.

(** X11. After a [predictions.create] that returned a prediction with a
    non-empty string id and was given at least one tracking option, a
    [predictions.get] for that id without an options argument captures its
    event with the tracking options of the create call: their distinct id
    (["anonymous"] when falsy) and their groups. *)
Theorem get_without_options_uses_create_params
    originalPredictionsCreate getElapsed options this prediction id
    originalPredictionsGet getElapsed' :
  originalPredictionsCreate (replicateOptions (extractPostHogParams options))
  = Return prediction →
  get prediction "id" = VStr id →
  id ≠ "" →
  someDefined (posthogParams (extractPostHogParams options)) = true →
  let created :=
    (createPrediction originalPredictionsCreate getElapsed options this).2 in
  ∃ this' message,
    getPrediction originalPredictionsGet getElapsed' id None created
    = (originalPredictionsGet id None, this')
    ∧ posthog this' = posthog created ++ [message]
    ∧ mergedParams id None created
      = posthogParams (extractPostHogParams options)
    ∧ PostHog.distinctId message
      = or (of_option (options !! "posthogDistinctId")) (VStr "anonymous")
    ∧ PostHog.groups message = of_option (options !! "posthogGroups").
Proof.
  intros Hcreate Hid Hne Hsome created.
  assert (mergedParams id None created
          = posthogParams (extractPostHogParams options)) as Hmerged.
  { rewrite no_options_keep_stored. unfold storedParams. subst created.
    rewrite createPrediction_stored, Hcreate, Hid.
    rewrite remember_stores by done. by rewrite lookup_insert_eq. }
  pose proof (perform_event (Get originalPredictionsGet getElapsed' id None)
                created) as (this' & Hp & Hlog & _).
  pose proof (event_identity (Get originalPredictionsGet getElapsed' id None)
                created) as [Hdistinct Hgroups].
  unfold perform, delegated, signalOnly in Hp. injection Hp as Hp.
  unfold tracking in Hdistinct, Hgroups.
  rewrite Hmerged in Hdistinct, Hgroups.
  rewrite get_posthogParams in Hdistinct by apply list_elem_of_here.
  rewrite get_posthogParams in Hgroups
    by (do 3 apply list_elem_of_further; apply list_elem_of_here).
  eexists this', _.
  split; [exact Hp |]. split; [exact Hlog |]. split; [exact Hmerged |].
  split; [exact Hdistinct | exact Hgroups].
Qed.

Lemma get_without_options_uses_create_params_witness :
  ∃ this' message,
    getPrediction fetching (num 0) "pred_123" None afterCreate
    = (fetching "pred_123" None, this')
    ∧ posthog this' = posthog afterCreate ++ [message]
    ∧ mergedParams "pred_123" None afterCreate
      = posthogParams (extractPostHogParams trackedCreateOptions)
    ∧ PostHog.distinctId message = VStr "user_1"
    ∧ PostHog.groups message = VUndefined.
Proof.
  pose proof (get_without_options_uses_create_params creating (num 0)
                trackedCreateOptions fresh
                (VObj (list_to_map [("id", VStr "pred_123");
                                    ("status", VStr "starting")]))
                "pred_123" fetching (num 0)
                eq_refl ltac:(vm_compute; reflexivity) ltac:(discriminate)
                ltac:(vm_compute; reflexivity)) as H.
  vm_compute in H. vm_compute. exact H.
Defined.

(** X12. The correlation map is touched only at the id an operation is
    about: [run] and [stream] leave it as it is, [predictions.create]
    changes at most the entry of the id it was answered with, and
    [predictions.get] changes at most the entry of the id it was asked for
    and never adds one. *)
Theorem correlation_map_touched_at_own_id_only op this :
  ∃ this',
    perform op this = Some (delegated op, this')
    ∧ match op with
      | Run _ _ _ _ | Stream _ _ _ _ =>
          predictionTrackingParams this' = predictionTrackingParams this
      | Create _ _ _ =>
          ∀ id,
            (∀ prediction,
               delegated op = Return prediction →
               get prediction "id" ≠ VStr id) →
            predictionTrackingParams this' !! id
            = predictionTrackingParams this !! id
      | Get _ _ predictionId _ =>
          predictionTrackingParams this' ⊆ predictionTrackingParams this
          ∧ ∀ id, id ≠ predictionId →
              predictionTrackingParams this' !! id
              = predictionTrackingParams this !! id
      end.
Proof.
  destruct (perform_event op this) as (this' & Hp & _).
  exists this'. split; [exact Hp |].
  destruct op as [f t m o | f t m o | f t o | f t id o];
    unfold perform, delegated in *.
  - unfold run in Hp. destruct (f m _); injection Hp as <-; reflexivity.
  - pose proof (for_await_stream f t m o this _ (Nat.lt_succ_diag_r _)) as H.
    cbv zeta in H. rewrite H in Hp. injection Hp as <-. reflexivity.
  - intros id' Hother.
    assert ((createPrediction f t o this).2 = this') as <-
      by (injection Hp as Hp; by rewrite Hp).
    rewrite createPrediction_stored.
    destruct (f _) as [prediction|err]; [| reflexivity].
    specialize (Hother prediction eq_refl). unfold remember.
    destruct (get prediction "id") as [| |?|?|id|?|?|? ? ? ?];
      try reflexivity.
    case_match; [| reflexivity]. cbn [predictionTrackingParams].
    apply lookup_insert_ne. congruence.
  - unfold getPrediction in Hp.
    assert (predictionTrackingParams this'
            = predictionTrackingParams this
            ∨ predictionTrackingParams this'
              = delete id (predictionTrackingParams this)) as [-> | ->].
    { destruct (f id _); injection Hp as <-;
        cbn [capturing predictionTrackingParams]; unfold cleanup;
        case_match; auto. }
    + done.
    + split; [apply delete_subseteq |].
      intros id' Hne. by apply lookup_delete_ne.
Qed.
(** ** The generator beyond a full iteration *)

Section GeneratorFacts.
Variable super_stream : string → object → Upstream.
Variable getElapsed : value.

Lemma nexts_S (n : nat) g this :
  nexts super_stream getElapsed (S n) g this
  = (let '(r, g, this) := next super_stream getElapsed g this in
     let '(rs, g, this) := nexts super_stream getElapsed n g this in
     (r :: rs, g, this)).
Proof. reflexivity. Qed.

Lemma nexts_completed (n : nat) g this :
  position g = Completed →
  nexts super_stream getElapsed n g this = (replicate n Done, g, this).
Proof.
  intros Hg. induction n as [|n IH]; [reflexivity |].
  rewrite nexts_S. unfold next at 1. rewrite Hg, IH. reflexivity.
Qed.

Lemma nexts_to_end_resumed events : ∀ (extra : nat) g ex failure collected this,
  position g = SuspendedYield
    {| extracted := ex;
       pending := {| chunks := events; failure := failure |};
       collectedOutput := collected |} →
  ∃ g',
    nexts super_stream getElapsed (S (length events) + extra) g this
    = ((Yielded <$> events) ++ lastResult failure :: replicate extra Done, g',
       capturing
         (streamOptions getElapsed (g_model g) ex
            (collected +:+ outputText events) (settled failure))
         this)
    ∧ position g' = Completed.
Proof.
  induction events as [|e events IH]; intros extra g ex fl collected this Hg.
  - change (S (length []) + extra) with (S extra).
    rewrite nexts_S. unfold next at 1. rewrite Hg.
    unfold resume. cbn [pending chunks failure extracted collectedOutput].
    change (outputText []) with "". rewrite append_empty.
    exists (moved g Completed).
    destruct fl; rewrite nexts_completed by reflexivity; by split.
  - change (S (length (e :: events)) + extra)
      with (S (S (length events) + extra)).
    rewrite nexts_S. unfold next at 1. rewrite Hg.
    unfold resume. cbn [pending chunks failure extracted collectedOutput].
    match goal with
    | |- context [nexts _ _ _ (moved g (SuspendedYield ?frame)) this] =>
        destruct (IH extra (moved g (SuspendedYield frame)) _ _ _ this eq_refl)
          as (g' & Hn & Hg')
    end.
    rewrite Hn.
    exists g'. split; [| exact Hg'].
    cbn [moved g_model]. rewrite outputText_cons.
    destruct (String.eqb (ServerSentEvent.event e) "output");
      by rewrite ?append_assoc.
Qed.

Lemma nexts_to_end_stream model options this (extra : nat) :
  let ex := extractPostHogParams options in
  let upstream := super_stream model (replicateOptions ex) in
  ∃ g',
    nexts super_stream getElapsed (S (length (chunks upstream)) + extra)
      (stream model options) this
    = ((Yielded <$> chunks upstream)
         ++ lastResult (failure upstream) :: replicate extra Done, g',
       capturing
         (streamOptions getElapsed model ex (outputText (chunks upstream))
            (settled (failure upstream)))
         this)
    ∧ position g' = Completed.
Proof.
  intros ex upstream. subst upstream.
  destruct (super_stream model (replicateOptions ex)) as [events fl] eqn:Hup.
  cbn [chunks failure].
  change (S (length events) + extra) with (S (length events + extra)).
  rewrite nexts_S. unfold next at 1.
  cbn [position stream g_options g_model]. fold ex. rewrite Hup.
  unfold resume. cbn [pending chunks failure extracted collectedOutput].
  destruct events as [|e events].
  - exists (moved (stream model options) Completed).
    change (length [] + extra) with extra.
    destruct fl; rewrite nexts_completed by reflexivity; by split.
  - change (length (e :: events) + extra) with (S (length events) + extra).
    match goal with
    | |- context [nexts _ _ _ (moved ?g (SuspendedYield ?frame)) this] =>
        destruct (nexts_to_end_resumed events extra
                    (moved g (SuspendedYield frame)) _ _ _ this eq_refl)
          as (g' & Hn & Hg')
    end.
    rewrite Hn.
    exists g'. split; [| exact Hg'].
    cbn [moved g_model stream]. rewrite outputText_cons.
    by destruct (String.eqb (ServerSentEvent.event e) "output").
Qed.

Lemma outputText_app a b :
  outputText (a ++ b) = outputText a +:+ outputText b.
Proof.
  induction a as [|e a IH]; [reflexivity |].
  change ((e :: a) ++ b) with (e :: (a ++ b)).
  rewrite !outputText_cons, IH.
  destruct (String.eqb (ServerSentEvent.event e) "output");
    by rewrite ?append_assoc.
Qed.

(** Where the generator stands after relaying [n] chunks from a [yield]. *)
Lemma nexts_yielding events : ∀ (n : nat) g ex failure collected this,
  position g = SuspendedYield
    {| extracted := ex;
       pending := {| chunks := events; failure := failure |};
       collectedOutput := collected |} →
  (n ≤ length events)%nat →
  ∃ g',
    nexts super_stream getElapsed n g this
    = (Yielded <$> take n events, g', this)
    ∧ g_model g' = g_model g
    ∧ position g'
      = SuspendedYield
          {| extracted := ex;
             pending := {| chunks := drop n events; failure := failure |};
             collectedOutput := collected +:+ outputText (take n events) |}.
Proof.
  induction events as [|e events IH]; intros n g ex fl collected this Hg Hn.
  - destruct n; [| cbn [length] in Hn; lia].
    exists g. cbn [nexts take drop fmap list_fmap].
    change (outputText []) with "". by rewrite append_empty.
  - destruct n as [|n].
    + exists g. cbn [nexts take drop fmap list_fmap].
      change (outputText []) with "". by rewrite append_empty.
    + cbn [length] in Hn. rewrite nexts_S. unfold next at 1. rewrite Hg.
      unfold resume. cbn [pending chunks failure extracted collectedOutput].
      match goal with
      | |- context [nexts _ _ _ (moved g (SuspendedYield ?frame)) this] =>
          destruct (IH n (moved g (SuspendedYield frame)) _ _ _ this eq_refl
                      ltac:(lia))
            as (g' & Hnexts & Hmodel & Hposition)
      end.
      rewrite Hnexts. exists g'.
      split; [reflexivity |]. split; [exact Hmodel |].
      rewrite Hposition. cbn [take drop]. rewrite outputText_cons.
      destruct (String.eqb (ServerSentEvent.event e) "output");
        by rewrite ?append_assoc.
Qed.

End GeneratorFacts.

(** X13. Calling [next()] after the iteration has ended yields [done]
    and captures nothing: however many calls follow the one that found the
    underlying stream exhausted, the results are the chunks, the end (or
    the error) and then [done] only, and the collector has received the one
    message of the stream. *)
Theorem next_after_the_end_captures_nothing
    super_stream getElapsed model options this (extra : nat) :
  let ex := extractPostHogParams options in
  let upstream := super_stream model (replicateOptions ex) in
  ∃ g',
    nexts super_stream getElapsed (S (length (chunks upstream)) + extra)
      (stream model options) this
    = ((Yielded <$> chunks upstream)
         ++ lastResult (failure upstream) :: replicate extra Done, g',
       {| posthog :=
            posthog this
            ++ [Capture.generationMessage
                  (streamOptions getElapsed model ex
                     (outputText (chunks upstream))
                     (settled (failure upstream)))];
          predictionTrackingParams := predictionTrackingParams this |})
    ∧ ∀ later, next super_stream getElapsed g' later = (Done, g', later).
Proof.
  intros ex upstream.
  destruct (nexts_to_end_stream super_stream getElapsed model options this
              extra) as (g' & Hn & Hg').
  exists g'. split; [exact Hn |]. intros later. unfold next. by rewrite Hg'.
Qed.

(** X14. Leaving the iteration early: [return()] after [n] chunks have been
    relayed ends the generator and, if the body had started, captures one
    message that is not an error and whose output is what the relayed
    chunks gave; [return()] before the first [next()] captures nothing. *)
Theorem early_return_captures_what_was_relayed
    super_stream getElapsed model options this (n : nat) :
  let ex := extractPostHogParams options in
  let upstream := super_stream model (replicateOptions ex) in
  (n ≤ length (chunks upstream))%nat →
  ∃ g g',
    nexts super_stream getElapsed n (stream model options) this
    = (Yielded <$> take n (chunks upstream), g, this)
    ∧ return_ getElapsed g this
      = (Done, g',
         match n with
         | O => this
         | S _ =>
             capturing
               (streamOptions getElapsed model ex
                  (outputText (take n (chunks upstream))) declared)
               this
         end)
    ∧ position g' = Completed.
Proof.
  intros ex upstream Hn. destruct n as [|n].
  - exists (stream model options), (moved (stream model options) Completed).
    by repeat split.
  - subst upstream.
    destruct (super_stream model (replicateOptions ex)) as [events fl] eqn:Hup.
    cbn [chunks] in *. destruct events as [|e events];
      [cbn [length] in Hn; lia |].
    cbn [length] in Hn. rewrite nexts_S. unfold next at 1.
    cbn [position stream g_options g_model]. fold ex. rewrite Hup.
    unfold resume. cbn [pending chunks failure extracted collectedOutput].
    match goal with
    | |- context [nexts _ _ n (moved ?g0 (SuspendedYield ?frame)) this] =>
        destruct (nexts_yielding super_stream getElapsed events n
                    (moved g0 (SuspendedYield frame)) _ _ _ this eq_refl
                    ltac:(lia))
          as (g & Hnexts & Hmodel & Hposition)
    end.
    rewrite Hnexts. exists g, (moved g Completed).
    split; [reflexivity |]. split; [| reflexivity].
    unfold return_. rewrite Hposition, Hmodel.
    cbn [extracted collectedOutput moved g_model stream take].
    rewrite outputText_cons.
    by destruct (String.eqb (ServerSentEvent.event e) "output").
Qed.

Lemma early_return_captures_what_was_relayed_witness :
  ∃ g g',
    nexts streaming (num 0) 2 (stream "meta/llama-2-70b-chat" plainOptions)
      fresh
    = (Yielded
         <$> take 2
               (chunks
                  (streaming "meta/llama-2-70b-chat"
                     (replicateOptions (extractPostHogParams plainOptions)))),
       g, fresh)
    ∧ return_ (num 0) g fresh
      = (Done, g',
         capturing
           (streamOptions (num 0) "meta/llama-2-70b-chat"
              (extractPostHogParams plainOptions)
              (outputText
                 (take 2
                    (chunks
                       (streaming "meta/llama-2-70b-chat"
                          (replicateOptions
                             (extractPostHogParams plainOptions))))))
              declared)
           fresh)
    ∧ position g' = Completed.
Proof.
  exact (early_return_captures_what_was_relayed streaming (num 0)
           "meta/llama-2-70b-chat" plainOptions fresh 2
           (le_S 2 2 (le_n 2))).
Defined.

(** ** The two wrapper classes *)

Ltac tracking_key :=
  unfold trackingKeys;
  repeat first [apply list_elem_of_here | apply list_elem_of_further].

Lemma replicateOptions_rest options :
  replicateOptions (extractPostHogParams options) = Replicate.rest options.
Proof. reflexivity. Qed.

(** X15. [run] of the extending class does what [run] of the composing
    class does: it ends in the same way, hands the same message to the
    collector, and leaves the correlation map alone. *)
Theorem run_agrees_with_composing_wrapper
    client_run getElapsed model options this :
  run client_run getElapsed model options this
  = ((Replicate.run client_run getElapsed model options (posthog this)).1,
     {| posthog :=
          (Replicate.run client_run getElapsed model options
             (posthog this)).2;
        predictionTrackingParams := predictionTrackingParams this |}).
Proof.
  unfold run, Replicate.run. rewrite replicateOptions_rest.
  unfold capturing, runOptions. rewrite replicateOptions_rest.
  rewrite !get_posthogParams by tracking_key.
  destruct (client_run model (Replicate.rest options)); reflexivity.
Qed.

(** X16. [predictions.create] of the extending class ends as the one of
    the composing class and hands the same message to the collector; what
    it adds is the entry in the correlation map. *)
Theorem createPrediction_agrees_with_composing_wrapper
    client_predictions_create getElapsed options this :
  (createPrediction client_predictions_create getElapsed options this).1
  = (Replicate.createPrediction client_predictions_create getElapsed options
       (posthog this)).1
  ∧ posthog
      (createPrediction client_predictions_create getElapsed options this).2
    = (Replicate.createPrediction client_predictions_create getElapsed
         options (posthog this)).2.
Proof.
  unfold createPrediction, Replicate.createPrediction.
  rewrite replicateOptions_rest.
  unfold capturing, createOptions. rewrite replicateOptions_rest.
  rewrite !get_posthogParams by tracking_key.
  destruct (client_predictions_create (Replicate.rest options));
    cbn [fst snd posthog]; split; try reflexivity.
  unfold remember. repeat case_match; reflexivity.
Qed.

(** ** Formatting an error *)

